(** * coderview: the Convex data layer and the Clerk webhook

    A shallow embedding of [convex/schema.ts], [convex/users.ts], the
    interviews module, [convex/comments.ts] and [convex/http.ts].

    - A table is the list of its documents in creation order (the order
      [collect()] and [first()] walk through equal index keys).
    - A handler is a computation in the monad [M]: it reads the request
      context ([ctx.auth], the clock behind [Date.now()]), reads and writes
      the database, and may throw.  A mutation is a transaction: when it
      throws, nothing it wrote is committed ([commit]).
    - The handlers store and copy values of [v.number()] and never compute
      on them, so the model is parametric in the type [number]; comparisons
      of instants are stated at [number := Z] (milliseconds). *)

From Stdlib Require Import List String Ascii Bool Arith ZArith Lia.
Import ListNotations.
Local Open Scope string_scope.

(** ** Values of the JavaScript runtime *)

(** A thrown exception: [new Error(msg)], or the [TypeError] the engine
    raises when a property of [undefined] is read. *)
Inductive JsError : Type :=
| Error (message : string)
| TypeError (message : string).

Definition message_of (e : JsError) : string :=
  match e with Error m | TypeError m => m end.

(** Truthiness of a [string | null | undefined]: the empty string, [null]
    and [undefined] are falsy. *)
Definition truthy (o : option string) : bool :=
  match o with
  | None => false
  | Some s => negb (s =? "")
  end.

(** [x || ""] on a [string | null | undefined]. *)
Definition or_empty (o : option string) : string :=
  if truthy o then match o with Some s => s | None => "" end else "".

(** [Array.prototype.join] on an array of strings. *)
Definition join (sep : string) (l : list string) : string := String.concat sep l.

(** *** [String.prototype.trim]

    Strings are byte strings holding UTF-8.  [trim] removes the code points
    of ECMAScript's WhiteSpace and LineTerminator from both ends: the one
    byte U+0009..U+000D and U+0020, the two bytes of U+00A0, and the three
    bytes of U+1680, U+2000..U+200A, U+2028, U+2029, U+202F, U+205F, U+3000
    and U+FEFF. *)
Definition ws1 (c : ascii) : bool :=
  let n := nat_of_ascii c in
  (((9 <=? n) && (n <=? 13)) || (n =? 32))%nat.

Definition ws2 (c1 c2 : ascii) : bool :=
  ((nat_of_ascii c1 =? 194) && (nat_of_ascii c2 =? 160))%nat.

Definition ws3 (c1 c2 c3 : ascii) : bool :=
  let a := nat_of_ascii c1 in
  let b := nat_of_ascii c2 in
  let c := nat_of_ascii c3 in
  (((a =? 225) && (b =? 154) && (c =? 128))
   || ((a =? 226) && (b =? 128)
       && (((128 <=? c) && (c <=? 138)) || (c =? 168) || (c =? 169) || (c =? 175)))
   || ((a =? 226) && (b =? 129) && (c =? 159))
   || ((a =? 227) && (b =? 128) && (c =? 128))
   || ((a =? 239) && (b =? 187) && (c =? 191)))%nat.

(** Drops the white space at the head of a list of bytes; with
    [backwards] the list is a reversed string, and a code point's bytes
    come last byte first. *)
Fixpoint drop_ws (backwards : bool) (l : list ascii) : list ascii :=
  match l with
  | [] => []
  | c1 :: l1 =>
      if ws1 c1 then drop_ws backwards l1 else
      match l1 with
      | [] => l
      | c2 :: l2 =>
          if (if backwards then ws2 c2 c1 else ws2 c1 c2) then drop_ws backwards l2 else
          match l2 with
          | [] => l
          | c3 :: l3 =>
              if (if backwards then ws3 c3 c2 c1 else ws3 c1 c2 c3)
              then drop_ws backwards l3 else l
          end
      end
  end.

Definition trim (s : string) : string :=
  string_of_list_ascii
    (rev (drop_ws true (rev (drop_ws false (list_ascii_of_string s))))).

(** ** The schema ([convex/schema.ts]) *)

(** A document id ([Id<"users">], [Id<"interviews">], [Id<"comments">]):
    the database hands them out, one counter for all tables. *)
Definition Id : Type := nat.

(** [v.union(v.literal("candidate"), v.literal("interviewer"))] *)
Inductive Role : Type := candidate | interviewer.

Module User.
Record t : Type := mk {
  _id : Id;
  clerkId : string;
  name : string;
  email : string;
  image : option string;
  role : Role
}.
End User.

Module Interview.
Record t {number : Type} : Type := mk {
  _id : Id;
  title : string;
  description : option string;
  startTime : number;
  endTime : option number;
  status : string;
  streamCallId : string;
  candidateId : string;
  interviewerIds : string
}.
Arguments t : clear implicits.
Arguments mk {number}.
End Interview.

Module Comment.
Record t {number : Type} : Type := mk {
  _id : Id;
  content : string;
  rating : number;
  interviewerId : string;
  interviewId : Id
}.
Arguments t : clear implicits.
Arguments mk {number}.
End Comment.

(** The database: the three tables and the next id to hand out. *)
Record Db {number : Type} : Type := mkDb {
  users : list User.t;
  interviews : list (Interview.t number);
  comments : list (Comment.t number);
  next_id : Id
}.
Arguments Db : clear implicits.
Arguments mkDb {number}.

Definition empty_db {number : Type} : Db number := mkDb [] [] [] 0.

(** ** Handlers: context, results and the monad [M] *)

(** What [ctx.auth.getUserIdentity()] returns for a valid session. *)
Record UserIdentity : Type := mkIdentity {
  subject : string;
  tokenIdentifier : string
}.

(** The part of the request context a handler reads besides the database:
    the caller's session ([None] when there is no valid one) and the
    instant [Date.now()] returns during the call. *)
Record Ctx {number : Type} : Type := mkCtx {
  auth : option UserIdentity;
  now : number
}.
Arguments Ctx : clear implicits.
Arguments mkCtx {number}.

Inductive Result (A : Type) : Type :=
| Ok (a : A)
| Throw (e : JsError).
Arguments Ok {A}.
Arguments Throw {A}.

Definition M (number A : Type) : Type :=
  Ctx number -> Db number -> Result (A * Db number).

Section Monad.
Context {number : Type}.

Definition ret {A} (a : A) : M number A := fun _ db => Ok (a, db).

Definition bind {A B} (m : M number A) (k : A -> M number B) : M number B :=
  fun ctx db =>
    match m ctx db with
    | Ok (a, db') => k a ctx db'
    | Throw e => Throw e
    end.

Definition throw {A} (e : JsError) : M number A := fun _ _ => Throw e.

(** [ctx.auth.getUserIdentity()] *)
Definition getUserIdentity : M number (option UserIdentity) :=
  fun ctx db => Ok (auth ctx, db).

(** [Date.now()] *)
Definition Date_now : M number number := fun ctx db => Ok (now ctx, db).

(** The state of the database once the transaction of a mutation is
    over: what it wrote when it returned, the state before when it
    threw. *)
Definition commit {A} (db : Db number) (r : Result (A * Db number)) : Db number :=
  match r with
  | Ok (_, db') => db'
  | Throw _ => db
  end.

(** *** [ctx.db] *)

(** [ctx.db.query(table).withIndex(index, range).collect()]: the
    documents of the range, in creation order; [full_table] is the
    query without [withIndex]. *)
Definition collect {A} (table : Db number -> list A) (range : A -> bool)
  : M number (list A) :=
  fun _ db => Ok (filter range (table db), db).

(** [ctx.db.query(table).withIndex(index, range).first()]: the oldest
    document of the range, [None] ([null]) when it is empty. *)
Definition first {A} (table : Db number -> list A) (range : A -> bool)
  : M number (option A) :=
  fun _ db => Ok (find range (table db), db).

Definition full_table {A} : A -> bool := fun _ => true.

(** The index ranges [q.eq(field, value)] of the schema's indexes. *)
Definition by_clerk_id (value : string) : User.t -> bool :=
  fun u => User.clerkId u =? value.

Definition by_candidate_id (value : string) : Interview.t number -> bool :=
  fun i => Interview.candidateId i =? value.

Definition by_stream_call_id (value : string) : Interview.t number -> bool :=
  fun i => Interview.streamCallId i =? value.

Definition by_interview_id (value : Id) : Comment.t number -> bool :=
  fun c => Nat.eqb (Comment.interviewId c) value.

(** [ctx.db.insert(table, fields)]: the database picks the fresh [_id],
    stores the document after the older ones and returns the id. *)
Definition insert_users (fields : Id -> User.t) : M number Id :=
  fun _ db =>
    let id := next_id db in
    Ok (id, mkDb (users db ++ [fields id]) (interviews db) (comments db) (S id)).

Definition insert_interviews (fields : Id -> Interview.t number) : M number Id :=
  fun _ db =>
    let id := next_id db in
    Ok (id, mkDb (users db) (interviews db ++ [fields id]) (comments db) (S id)).

Definition insert_comments (fields : Id -> Comment.t number) : M number Id :=
  fun _ db =>
    let id := next_id db in
    Ok (id, mkDb (users db) (interviews db) (comments db ++ [fields id]) (S id)).

(** The object given to [ctx.db.patch] for an interview: the fields it
    holds ([None]: the key is not in the object). *)
Record InterviewPatch : Type := mkPatch {
  patch_status : option string;
  patch_endTime : option number
}.

(** The shallow merge of [ctx.db.patch]: the fields of the patch replace
    the document's, every other field stays. *)
Definition merge (p : InterviewPatch) (i : Interview.t number) : Interview.t number :=
  Interview.mk (Interview._id i) (Interview.title i) (Interview.description i)
    (Interview.startTime i)
    (match patch_endTime p with Some t => Some t | None => Interview.endTime i end)
    (match patch_status p with Some s => s | None => Interview.status i end)
    (Interview.streamCallId i) (Interview.candidateId i) (Interview.interviewerIds i).

Definition has_id (id : Id) (i : Interview.t number) : bool :=
  Nat.eqb (Interview._id i) id.

(** [ctx.db.patch(id, fields)] on the interviews; it throws when no
    document has the id. *)
Definition patch_interviews (id : Id) (p : InterviewPatch) : M number unit :=
  fun _ db =>
    if existsb (has_id id) (interviews db)
    then Ok (tt, mkDb (users db)
                      (map (fun i => if has_id id i then merge p i else i) (interviews db))
                      (comments db) (next_id db))
    else Throw (Error "Update on nonexistent document ID").
End Monad.

Declare Scope handler_scope.
Delimit Scope handler_scope with handler.
Notation "x <- m ;; k" := (bind m (fun x => k))
  (at level 100, m at next level, right associativity) : handler_scope.
Local Open Scope handler_scope.

(** ** [convex/users.ts] *)

Module SyncUserArgs.
Record t : Type := mk {
  clerkId : string;
  email : string;
  name : string;
  image : option string
}.
End SyncUserArgs.

Section Users.
Context {number : Type}.

Definition syncUser (args : SyncUserArgs.t) : M number Id :=
  existingUser <- first users (by_clerk_id (SyncUserArgs.clerkId args)) ;;
  match existingUser with
  | Some u => ret (User._id u)
  | None =>
      newUserId <- insert_users (fun id =>
        User.mk id (SyncUserArgs.clerkId args) (SyncUserArgs.name args)
          (SyncUserArgs.email args) (SyncUserArgs.image args) candidate) ;;
      ret newUserId
  end.

Definition getUsers : M number (list User.t) :=
  identity <- getUserIdentity ;;
  match identity with
  | None => throw (Error "Unauthorized, user is not authenticated")
  | Some _ => collect users full_table
  end.

Definition getUserByClerkId (clerkId : string) : M number (option User.t) :=
  first users (by_clerk_id clerkId).
End Users.

(** ** The interviews module *)

Module CreateInterviewArgs.
Record t {number : Type} : Type := mk {
  title : string;
  description : option string;
  startTime : number;
  status : string;
  streamCallId : string;
  candidateId : string;
  interviewerIds : list string
}.
Arguments t : clear implicits.
Arguments mk {number}.
End CreateInterviewArgs.

Module UpdateInterviewArgs.
Record t : Type := mk {
  id : Id;
  status : string
}.
End UpdateInterviewArgs.

Section Interviews.
Context {number : Type}.

Definition getAllInterviews : M number (list (Interview.t number)) :=
  identity <- getUserIdentity ;;
  match identity with
  | None => throw (Error "Unauthorized")
  | Some _ => collect interviews full_table
  end.

Definition getMyInterviews : M number (list (Interview.t number)) :=
  identity <- getUserIdentity ;;
  match identity with
  | None => throw (Error "Unauthorized")
  | Some identity => collect interviews (by_candidate_id (subject identity))
  end.

Definition getInterviewByStreamCallId (streamCallId : string)
  : M number (option (Interview.t number)) :=
  first interviews (by_stream_call_id streamCallId).

(** The inserted document is [{...args, interviewerIds: join(",")}]: the
    arguments have no [endTime], so the document has none. *)
Definition createInterview (args : CreateInterviewArgs.t number) : M number Id :=
  identity <- getUserIdentity ;;
  match identity with
  | None => throw (Error "Unauthorized")
  | Some _ =>
      insert_interviews (fun id =>
        Interview.mk id (CreateInterviewArgs.title args)
          (CreateInterviewArgs.description args)
          (CreateInterviewArgs.startTime args)
          None
          (CreateInterviewArgs.status args)
          (CreateInterviewArgs.streamCallId args)
          (CreateInterviewArgs.candidateId args)
          (join "," (CreateInterviewArgs.interviewerIds args)))
  end.

(** The patch is
    [{status: args.status, ...(args.status === "completed" ? {endTime: Date.now()} : {})}]. *)
Definition updateInterview (args : UpdateInterviewArgs.t) : M number unit :=
  identity <- getUserIdentity ;;
  match identity with
  | None => throw (Error "Unauthorized")
  | Some _ =>
      stamp <- (if UpdateInterviewArgs.status args =? "completed"
                then t <- Date_now ;; ret (Some t)
                else ret None) ;;
      patch_interviews (UpdateInterviewArgs.id args)
        (mkPatch (Some (UpdateInterviewArgs.status args)) stamp)
  end.
End Interviews.

(** ** [convex/comments.ts] *)

Module AddCommentArgs.
Record t {number : Type} : Type := mk {
  interviewId : Id;
  content : string;
  rating : number
}.
Arguments t : clear implicits.
Arguments mk {number}.
End AddCommentArgs.

Section Comments.
Context {number : Type}.

Definition addComment (args : AddCommentArgs.t number) : M number Id :=
  identity <- getUserIdentity ;;
  match identity with
  | None => throw (Error "Unauthorized")
  | Some identity =>
      insert_comments (fun id =>
        Comment.mk id (AddCommentArgs.content args) (AddCommentArgs.rating args)
          (subject identity) (AddCommentArgs.interviewId args))
  end.

Definition getComments (interviewId : Id) : M number (list (Comment.t number)) :=
  collect comments (by_interview_id interviewId).
End Comments.

(** ** [convex/http.ts]: the Clerk webhook *)

(** The part of Clerk's [UserJSON] the handler reads.  [first_name] and
    [last_name] are [string | null]; [image_url] is [None] when the key is
    missing. *)
Record EmailAddressJSON : Type := mkEmail {
  email_address : string
}.

Module UserJSON.
Record t : Type := mk {
  id : string;
  email_addresses : list EmailAddressJSON;
  first_name : option string;
  last_name : option string;
  image_url : option string
}.
End UserJSON.

(** [data] is read only under [type === "user.created"], where it is a
    [UserJSON]. *)
Record WebhookEvent : Type := mkEvent {
  type : string;
  data : UserJSON.t
}.

(** [process.env] *)
Record Env : Type := mkEnv {
  CLERK_WEBHOOK_SECRET : option string
}.

(** The inbound request: [headers_get] is [request.headers.get]; [json] is
    the text [JSON.stringify] gives for the value [request.json()] resolves
    to, or what [request.json()] throws when the body is not JSON. *)
Record Request : Type := mkRequest {
  headers_get : string -> option string;
  json : Result string
}.

Record SvixHeaders : Type := mkSvixHeaders {
  svix_id : string;
  svix_timestamp : string;
  svix_signature : string
}.

(** [new Response(body, {status})] *)
Record Response : Type := mkResponse {
  body : string;
  status : nat
}.

(** How an HTTP action ends: it returns a response or it throws. *)
Inductive Outcome : Type :=
| Respond (r : Response)
| Thrown (e : JsError).

(** [if (!x) ...] on a [string | null | undefined]: the value when truthy. *)
Definition when_truthy (o : option string) : option string :=
  if truthy o then o else None.

Section Http.
Context {number : Type}.

(** Svix, the verification collaborator: [new Webhook(secret)] and
    [wh.verify(body, headers)], which returns the event or throws. *)
Variable Webhook : Type.
Variable new_Webhook : string -> Result Webhook.
Variable verify : Webhook -> string -> SvixHeaders -> Result WebhookEvent.

(** [ctx.runMutation] from an action: the mutation runs in a transaction
    of its own, which is committed when it returns. *)
Definition runMutation {A} (m : M number A) (ctx : Ctx number) (db : Db number)
  : Result A * Db number :=
  match m ctx db with
  | Ok (a, db') => (Ok a, db')
  | Throw e => (Throw e, db)
  end.

Definition clerk_webhook (env : Env) (request : Request)
    (ctx : Ctx number) (db : Db number) : Outcome * Db number :=
  match when_truthy (CLERK_WEBHOOK_SECRET env) with
  | None => (Thrown (Error "missing clerk webhook secret environment variable"), db)
  | Some webhookSecret =>
  match when_truthy (headers_get request "svix-id"),
        when_truthy (headers_get request "svix-timestamp"),
        when_truthy (headers_get request "svix-signature") with
  | Some svix_id, Some svix_timestamp, Some svix_signature =>
      match json request with
      | Throw e => (Thrown e, db)
      | Ok body =>
      match new_Webhook webhookSecret with
      | Throw e => (Thrown e, db)
      | Ok wh =>
      match verify wh body (mkSvixHeaders svix_id svix_timestamp svix_signature) with
      | Throw _ => (Respond (mkResponse "invalid svix payload" 400), db)
      | Ok evt =>
          if type evt =? "user.created" then
            match UserJSON.email_addresses (data evt) with
            | [] =>
                (Thrown (TypeError
                   "Cannot read properties of undefined (reading 'email_address')"), db)
            | e0 :: _ =>
                let email := email_address e0 in
                let name :=
                  trim (or_empty (UserJSON.first_name (data evt)) ++ " "
                        ++ or_empty (UserJSON.last_name (data evt))) in
                match runMutation
                        (syncUser (SyncUserArgs.mk (UserJSON.id (data evt)) email name
                                     (UserJSON.image_url (data evt)))) ctx db with
                | (Throw _, db') => (Respond (mkResponse "error creating user" 500), db')
                | (Ok _, db') =>
                    (Respond (mkResponse "webhook processed successfully" 200), db')
                end
            end
          else (Respond (mkResponse "webhook processed successfully" 200), db)
      end end end
  | _, _, _ => (Respond (mkResponse "missing svix headers" 400), db)
  end end.
End Http.

(** ** Sequences of calls *)

(** A call of one of the mutations a client (or the webhook, for
    [syncUser]) can make. *)
Inductive Call {number : Type} : Type :=
| CallSyncUser (args : SyncUserArgs.t)
| CallCreateInterview (args : CreateInterviewArgs.t number)
| CallUpdateInterview (args : UpdateInterviewArgs.t)
| CallAddComment (args : AddCommentArgs.t number).
Arguments Call : clear implicits.

Section Traces.
Context {number : Type}.

(** The database after the call has run as a transaction. *)
Definition exec (step : Ctx number * Call number) (db : Db number) : Db number :=
  let (ctx, call) := step in
  match call with
  | CallSyncUser args => commit db (syncUser args ctx db)
  | CallCreateInterview args => commit db (createInterview args ctx db)
  | CallUpdateInterview args => commit db (updateInterview args ctx db)
  | CallAddComment args => commit db (addComment args ctx db)
  end.

Fixpoint run (trace : list (Ctx number * Call number)) (db : Db number) : Db number :=
  match trace with
  | [] => db
  | step :: rest => run rest (exec step db)
  end.

(** The states the deployment can be in: those some sequence of calls
    leads to from the empty database. *)
Definition reachable (db : Db number) : Prop :=
  exists trace, run trace empty_db = db.
End Traces.

(** ** Notions the properties are stated with *)

(** An error whose message says [Unauthorized]: [getUsers] adds
    [", user is not authenticated"], the other handlers throw the bare
    word. *)
Definition Unauthorized (e : JsError) : Prop :=
  exists rest, e = Error ("Unauthorized" ++ rest).

(** A call that threw an [Unauthorized] error, with nothing written. *)
Definition rejected_unauthorized {number A : Type}
    (db : Db number) (r : Result (A * Db number)) : Prop :=
  (exists e, r = Throw e /\ Unauthorized e) /\ commit db r = db.

Section Notions.
Context {number : Type}.

(** The document [createInterview] stores under the id [id]. *)
Definition created (args : CreateInterviewArgs.t number) (id : Id) : Interview.t number :=
  Interview.mk id (CreateInterviewArgs.title args)
    (CreateInterviewArgs.description args) (CreateInterviewArgs.startTime args)
    None (CreateInterviewArgs.status args) (CreateInterviewArgs.streamCallId args)
    (CreateInterviewArgs.candidateId args)
    (join "," (CreateInterviewArgs.interviewerIds args)).

(** The patch [updateInterview] builds when the clock reads [t]. *)
Definition status_patch (args : UpdateInterviewArgs.t) (t : number) : InterviewPatch :=
  mkPatch (Some (UpdateInterviewArgs.status args))
    (if UpdateInterviewArgs.status args =? "completed" then Some t else None).

(** What [patch_interviews id p] makes of a stored interview. *)
Definition patched (id : Id) (p : InterviewPatch) (i : Interview.t number)
  : Interview.t number :=
  if has_id id i then merge p i else i.

(** The stored interview with the given id. *)
Definition get_interview (db : Db number) (id : Id) : option (Interview.t number) :=
  find (has_id id) (interviews db).

(** The stored user records of one Clerk user. *)
Definition records_of (clerkId : string) (db : Db number) : list User.t :=
  filter (by_clerk_id clerkId) (users db).

(** The [endTime] stored for interview [id], [None] when it has none or
    when no such interview is stored. *)
Definition endTime_in (db : Db number) (id : Id) : option number :=
  match get_interview db id with
  | Some i => Interview.endTime i
  | None => None
  end.

(** What holds of every reachable database: one user record at most for
    a [clerkId], and interview ids that are distinct and already handed
    out. *)
Record well_formed (db : Db number) : Prop := mkWf {
  wf_users : NoDup (map User.clerkId (users db));
  wf_ids : NoDup (map Interview._id (interviews db));
  wf_fresh : Forall (fun i => (Interview._id i < next_id db)%nat) (interviews db)
}.

(** Two versions of an interview that differ at most in [status] and
    [endTime]. *)
Definition same_but_status_endTime (i i' : Interview.t number) : Prop :=
  Interview._id i' = Interview._id i
  /\ Interview.title i' = Interview.title i
  /\ Interview.description i' = Interview.description i
  /\ Interview.startTime i' = Interview.startTime i
  /\ Interview.streamCallId i' = Interview.streamCallId i
  /\ Interview.candidateId i' = Interview.candidateId i
  /\ Interview.interviewerIds i' = Interview.interviewerIds i.

(** The relation the data model of the specification states between the
    two fields. *)
Definition endTime_iff_completed (i : Interview.t number) : Prop :=
  Interview.endTime i <> None <-> Interview.status i = "completed".

(** The call is an [updateInterview] of interview [id] to ["completed"]
    that goes through in [db]: the caller has a session and the
    interview exists. *)
Definition completes (db : Db number) (step : Ctx number * Call number) (id : Id) : bool :=
  match snd step with
  | CallUpdateInterview args =>
      match auth (fst step) with Some _ => true | None => false end
      && Nat.eqb (UpdateInterviewArgs.id args) id
      && (UpdateInterviewArgs.status args =? "completed")
      && existsb (has_id id) (interviews db)
  | _ => false
  end.

(** The clock of the last call of the trace that completes interview
    [id], [None] when no call does; [db] is the state the trace starts
    from. *)
Fixpoint completed_at (trace : list (Ctx number * Call number)) (db : Db number)
    (id : Id) : option number :=
  match trace with
  | [] => None
  | step :: rest =>
      match completed_at rest (exec step db) id with
      | Some t => Some t
      | None => if completes db step id then Some (now (fst step)) else None
      end
  end.
End Notions.

Section HttpNotions.
Context {number : Type}.
Variable Webhook : Type.
Variable new_Webhook : string -> Result Webhook.
Variable verify : Webhook -> string -> SvixHeaders -> Result WebhookEvent.

(** The request carries the three headers and a JSON body, the secret is
    configured and Svix accepts it; [r] is what [wh.verify] gives. *)
Definition verification (env : Env) (request : Request)
    (r : Result WebhookEvent) : Prop :=
  exists secret id timestamp signature body wh,
    when_truthy (CLERK_WEBHOOK_SECRET env) = Some secret
    /\ when_truthy (headers_get request "svix-id") = Some id
    /\ when_truthy (headers_get request "svix-timestamp") = Some timestamp
    /\ when_truthy (headers_get request "svix-signature") = Some signature
    /\ json request = Ok body
    /\ new_Webhook secret = Ok wh
    /\ verify wh body (mkSvixHeaders id timestamp signature) = r.
End HttpNotions.

(** ** Sample data *)

Definition alice : UserIdentity := mkIdentity "user_alice" "clerk|user_alice".

Definition as_alice (t : Z) : Ctx Z := mkCtx (Some alice) t.

Definition anonymous (t : Z) : Ctx Z := mkCtx None t.

Definition sample_interview (startTime : Z) (status : string) : CreateInterviewArgs.t Z :=
  CreateInterviewArgs.mk "Backend interview" None startTime status "call_1"
    "user_bob" ["user_alice"; "user_carol"].

(** An interview that starts at 2000 is created at 1000, completed at
    1500 and set back to "scheduled" at 1600. *)
Definition created_and_completed : list (Ctx Z * Call Z) :=
  [ (as_alice 1000, CallCreateInterview (sample_interview 2000 "scheduled"));
    (as_alice 1500, CallUpdateInterview (UpdateInterviewArgs.mk 0 "completed")) ].

Definition completed_then_rescheduled : list (Ctx Z * Call Z) :=
  created_and_completed
  ++ [ (as_alice 1600, CallUpdateInterview (UpdateInterviewArgs.mk 0 "scheduled")) ].

(** An interview created with the status "completed". *)
Definition created_as_completed : list (Ctx Z * Call Z) :=
  [ (as_alice 1000, CallCreateInterview (sample_interview 900 "completed")) ].

(** The event of the example scenario of the specification. *)
Definition ann_created : WebhookEvent :=
  mkEvent "user.created"
    (UserJSON.mk "u_1" [mkEmail "a@b.com"] (Some "Ann") None None).

Definition no_email_created : WebhookEvent :=
  mkEvent "user.created" (UserJSON.mk "u_2" [] (Some "Bob") (Some "Ray") None).

(** A stand-in for Svix: the secret is the key, and the one signature
    that verifies is ["v1," ++ secret]; a verified body is the event
    [evt]. *)
Definition demo_new_Webhook (secret : string) : Result string := Ok secret.

Definition demo_verify (evt : WebhookEvent) (key body : string) (h : SvixHeaders)
  : Result WebhookEvent :=
  if svix_signature h =? "v1," ++ key then Ok evt
  else Throw (Error "No matching signature found").

Definition demo_env : Env := mkEnv (Some "whsec_demo").

Definition demo_request (signature : string) : Request :=
  mkRequest
    (fun h =>
       if h =? "svix-id" then Some "msg_1"
       else if h =? "svix-timestamp" then Some "1700000000"
       else if h =? "svix-signature" then Some signature
       else None)
    (Ok "{}").

(** ** The client: [useUserRole] and [DashboardBtn] *)

(** The strings of the two literals of the [role] union. *)
Definition role_string (r : Role) : string :=
  match r with
  | candidate => "candidate"
  | interviewer => "interviewer"
  end.

(** What Clerk's [useUser()] gives as [user], of which the hook reads
    [id]; [None] while Clerk loads and when nobody is signed in. *)
Module ClerkUser.
Record t : Type := mk {
  id : string
}.
End ClerkUser.

(** What [useQuery] returns: [undefined] until the result of the query
    has arrived, the result afterwards. *)
Inductive QueryValue (A : Type) : Type :=
| Undefined
| Value (a : A).
Arguments Undefined {A}.
Arguments Value {A}.

Record UserRole : Type := mkUserRole {
  isLoading : bool;
  isInterviewer : bool;
  isCandidate : bool
}.

Section Client.
Context {number : Type}.

(** [useQuery(query, args)] against the database [db]: [arrived] tells
    whether the subscription has delivered a result yet. *)
Definition useQuery {A} (query : M number A) (arrived : bool)
    (ctx : Ctx number) (db : Db number) : Result (QueryValue A) :=
  if arrived then
    match query ctx db with
    | Ok (a, _) => Ok (Value a)
    | Throw e => Throw e
    end
  else Ok Undefined.

(** [userData?.role === literal]: [false] on [undefined] (loading) and on
    [null] (no such user). *)
Definition role_is (userData : QueryValue (option User.t)) (literal : string) : bool :=
  match userData with
  | Value (Some u) => role_string (User.role u) =? literal
  | _ => false
  end.

Definition useUserRole (user : option ClerkUser.t) (arrived : bool)
    (ctx : Ctx number) (db : Db number) : Result UserRole :=
  match useQuery (getUserByClerkId (or_empty (option_map ClerkUser.id user)))
          arrived ctx db with
  | Throw e => Throw e
  | Ok userData =>
      Ok (mkUserRole
            (match userData with Undefined => true | Value _ => false end)
            (role_is userData "recruiter")
            (role_is userData "candidate"))
  end.

End Client.

(** ** Further notions *)

(** The name the webhook stores:
    [`${first_name || ""} ${last_name || ""}`.trim()]. *)
Definition display_name (first_name last_name : option string) : string :=
  trim (or_empty first_name ++ " " ++ or_empty last_name).

(** A string [trim] leaves as it is: no white space at either end. *)
Definition trimmed (s : string) : Prop := trim s = s.

(** [l'] is [l] with documents added after it. *)
Definition extends {A : Type} (l l' : list A) : Prop :=
  exists added, l' = (l ++ added)%list.

Section FurtherNotions.
Context {number : Type}.

(** The comment [addComment] stores under the id [id] for the caller
    [identity]. *)
Definition commented (args : AddCommentArgs.t number) (identity : UserIdentity) (id : Id)
  : Comment.t number :=
  Comment.mk id (AddCommentArgs.content args) (AddCommentArgs.rating args)
    (subject identity) (AddCommentArgs.interviewId args).

(** The user record [syncUser] stores under the id [id]. *)
Definition synced (args : SyncUserArgs.t) (id : Id) : User.t :=
  User.mk id (SyncUserArgs.clerkId args) (SyncUserArgs.name args)
    (SyncUserArgs.email args) (SyncUserArgs.image args) candidate.

(** The arguments the webhook gives [syncUser] for a user whose first email
    address is [e0]. *)
Definition sync_args (evt : WebhookEvent) (e0 : EmailAddressJSON) : SyncUserArgs.t :=
  SyncUserArgs.mk (UserJSON.id (data evt)) (email_address e0)
    (display_name (UserJSON.first_name (data evt)) (UserJSON.last_name (data evt)))
    (UserJSON.image_url (data evt)).
End FurtherNotions.


Definition nothing_verifies (key body : string) (h : SvixHeaders) : Result WebhookEvent :=
  Throw (Error "No matching signature found").

Definition org_created : WebhookEvent :=
  mkEvent "organization.created" (UserJSON.mk "org_1" [] None None None).

Definition not_json_request : Request :=
  mkRequest (headers_get (demo_request "v1,whsec_demo"))
    (Throw (Error "Unexpected token in JSON")).

(** A request with a tampered signature whose body is not JSON. *)
Definition tampered_not_json_request : Request :=
  mkRequest (headers_get (demo_request "v1,tampered"))
    (Throw (Error "Unexpected token in JSON")).

Definition bob : UserIdentity := mkIdentity "user_bob" "clerk|user_bob".

Definition as_bob (t : Z) : Ctx Z := mkCtx (Some bob) t.

Definition interview_for (candidateId streamCallId : string) : CreateInterviewArgs.t Z :=
  CreateInterviewArgs.mk "Frontend interview" (Some "React") 5000%Z "scheduled"
    streamCallId candidateId ["user_alice"].

(** Alice creates three interviews: for Bob, for Carol, and for Bob
    again. *)
Definition three_interviews : list (Ctx Z * Call Z) :=
  [ (as_alice 1, CallCreateInterview (interview_for "user_bob" "call_1"));
    (as_alice 2, CallCreateInterview (interview_for "user_carol" "call_2"));
    (as_alice 3, CallCreateInterview (interview_for "user_bob" "call_3")) ].

(** * Properties *)

(** ** The runtime functions on the values the webhook meets *)

Example trim_first_name_only :
  trim (or_empty (Some "Ann") ++ " " ++ or_empty None) = "Ann".
Proof. reflexivity. Qed.

Example trim_both_names :
  trim (or_empty (Some "Ann") ++ " " ++ or_empty (Some "Lee")) = "Ann Lee".
Proof. reflexivity. Qed.

Example trim_no_name : trim (or_empty None ++ " " ++ or_empty (Some "")) = "".
Proof. reflexivity. Qed.

(** A tab, a line feed and a no-break space (the bytes 194 160) around
    the text go, the space inside stays. *)
Example trim_white_space :
  trim (String (ascii_of_nat 9) (String (ascii_of_nat 194) (String (ascii_of_nat 160)
          ("a b" ++ String (ascii_of_nat 226) (String (ascii_of_nat 128)
             (String (ascii_of_nat 168) (String (ascii_of_nat 10) ""))))))) = "a b".
Proof. reflexivity. Qed.

Example join_interviewerIds : join "," ["user_alice"; "user_carol"] = "user_alice,user_carol".
Proof. reflexivity. Qed.

(** ** Sessions: the protected handlers *)

Section Protected.
Context {number : Type}.
Implicit Types (ctx : Ctx number) (db : Db number).

Lemma Unauthorized_bare : Unauthorized (Error "Unauthorized").
Proof. exists "". reflexivity. Qed.

Lemma Unauthorized_getUsers :
  Unauthorized (Error "Unauthorized, user is not authenticated").
Proof. exists ", user is not authenticated". reflexivity. Qed.

Lemma rejected_intro {A} db (r : Result (A * Db number)) e :
  r = Throw e -> Unauthorized e -> rejected_unauthorized db r.
Proof.
  intros -> He. split.
  - exists e. split; [reflexivity | exact He].
  - reflexivity.
Qed.

(** C4. Without a valid session each of getUsers, getAllInterviews,
    getMyInterviews, createInterview, updateInterview (the
    updateInterviewStatus of the specification) and addComment throws an
    Unauthorized error, and the database is the one before the call:
    nothing was inserted or patched. *)
Theorem protected_handlers_reject_no_session ctx db :
  auth ctx = None ->
  rejected_unauthorized db (getUsers ctx db)
  /\ rejected_unauthorized db (getAllInterviews ctx db)
  /\ rejected_unauthorized db (getMyInterviews ctx db)
  /\ (forall args, rejected_unauthorized db (createInterview args ctx db))
  /\ (forall args, rejected_unauthorized db (updateInterview args ctx db))
  /\ (forall args, rejected_unauthorized db (addComment args ctx db)).
Proof.
  intros Hauth.
  assert (Hthrow : forall A (k : UserIdentity -> M number A) e,
             bind getUserIdentity
               (fun identity => match identity with
                                | None => throw e
                                | Some x => k x
                                end) ctx db = Throw e).
  { intros A k e. unfold bind, getUserIdentity, throw. rewrite Hauth. reflexivity. }
  split; [| split; [| split; [| split; [| split]]]]; intros.
  - eapply rejected_intro; [apply Hthrow | exact Unauthorized_getUsers].
  - eapply rejected_intro; [apply Hthrow | exact Unauthorized_bare].
  - eapply rejected_intro; [apply Hthrow | exact Unauthorized_bare].
  - eapply rejected_intro; [apply Hthrow | exact Unauthorized_bare].
  - eapply rejected_intro; [apply Hthrow | exact Unauthorized_bare].
  - eapply rejected_intro; [apply Hthrow | exact Unauthorized_bare].
Qed.
End Protected.

Lemma protected_handlers_reject_no_session_witness :
  auth (anonymous 5) = None
  /\ rejected_unauthorized empty_db
       (createInterview (sample_interview 9 "scheduled") (anonymous 5) empty_db).
Proof.
  split; [reflexivity |].
  apply (protected_handlers_reject_no_session (anonymous 5) empty_db); reflexivity.
Defined.

(** ** Interviews: queries *)

Section InterviewQueries.
Context {number : Type}.
Implicit Types (ctx : Ctx number) (db : Db number).

(** C5. For a caller with a valid session and identity X, whatever the
    stored interviews, getMyInterviews returns (and writes nothing) a
    list that holds exactly the stored interviews whose candidateId is
    X's subject: every one of them, and no other record. *)
Theorem getMyInterviews_exactly_own ctx X db :
  auth ctx = Some X ->
  exists result,
    getMyInterviews ctx db = Ok (result, db)
    /\ forall i,
         In i result <->
         In i (interviews db) /\ Interview.candidateId i = subject X.
Proof.
  intros Hauth.
  exists (filter (by_candidate_id (subject X)) (interviews db)). split.
  - unfold getMyInterviews, bind, getUserIdentity, collect.
    rewrite Hauth. reflexivity.
  - intros i. rewrite filter_In. unfold by_candidate_id.
    rewrite String.eqb_eq. reflexivity.
Qed.
End InterviewQueries.

Lemma getMyInterviews_exactly_own_witness :
  let db := run three_interviews empty_db in
  auth (as_bob 9) = Some bob
  /\ getMyInterviews (as_bob 9) db =
       Ok ([created (interview_for "user_bob" "call_1") 0;
            created (interview_for "user_bob" "call_3") 2], db)
  /\ In (created (interview_for "user_carol" "call_2") 1) (interviews db)
  /\ exists result,
       getMyInterviews (as_bob 9) db = Ok (result, db)
       /\ forall i,
            In i result <->
            In i (interviews db) /\ Interview.candidateId i = subject bob.
Proof.
  cbv zeta. split; [reflexivity |]. split; [reflexivity |].
  split; [right; left; reflexivity |].
  apply (getMyInterviews_exactly_own (as_bob 9) bob (run three_interviews empty_db)).
  reflexivity.
Defined.

(** ** Comments *)

Section CommentFacts.
Context {number : Type}.
Implicit Types (ctx : Ctx number) (db : Db number).

(** C9. For every authenticated call of addComment, whatever the
    interview id, the content and the rating (any value of the number
    type: no range is checked), the call succeeds and appends one
    comment whose interviewerId is the subject of the caller's verified
    identity; the arguments have no field for it.  The other fields are
    the arguments, and nothing else in the database changes. *)
Theorem addComment_interviewer_is_caller ctx identity db
    (args : AddCommentArgs.t number) :
  auth ctx = Some identity ->
  addComment args ctx db =
    Ok (next_id db,
        mkDb (users db) (interviews db)
          (comments db ++
             [Comment.mk (next_id db) (AddCommentArgs.content args)
                (AddCommentArgs.rating args) (subject identity)
                (AddCommentArgs.interviewId args)])
          (S (next_id db))).
Proof.
  intros Hauth.
  unfold addComment, bind, getUserIdentity, insert_comments.
  rewrite Hauth. reflexivity.
Qed.
End CommentFacts.

Lemma addComment_interviewer_is_caller_witness :
  auth (as_alice 5) = Some alice
  /\ addComment (AddCommentArgs.mk 7 "solid" (-40)%Z) (as_alice 5) empty_db =
       Ok (0, mkDb [] [] [Comment.mk 0 "solid" (-40)%Z "user_alice" 7] 1).
Proof.
  split; [reflexivity |].
  apply (addComment_interviewer_is_caller (as_alice 5) alice empty_db
           (AddCommentArgs.mk 7 "solid" (-40)%Z)); reflexivity.
Defined.

(** ** Equations of the mutations *)

Section MutationEquations.
Context {number : Type}.
Implicit Types (ctx : Ctx number) (db : Db number).

Lemma createInterview_session ctx identity args db :
  auth ctx = Some identity ->
  createInterview args ctx db =
    Ok (next_id db,
        mkDb (users db) (interviews db ++ [created args (next_id db)])
          (comments db) (S (next_id db))).
Proof.
  intros Hauth. unfold createInterview, bind, getUserIdentity, insert_interviews.
  rewrite Hauth. reflexivity.
Qed.

Lemma updateInterview_session ctx identity args db :
  auth ctx = Some identity ->
  updateInterview args ctx db =
    patch_interviews (UpdateInterviewArgs.id args) (status_patch args (now ctx)) ctx db.
Proof.
  intros Hauth. unfold updateInterview, bind, getUserIdentity, status_patch.
  rewrite Hauth.
  destruct (UpdateInterviewArgs.status args =? "completed"); reflexivity.
Qed.

Lemma updateInterview_no_session ctx args db :
  auth ctx = None -> updateInterview args ctx db = Throw (Error "Unauthorized").
Proof.
  intros Hauth. unfold updateInterview, bind, getUserIdentity, throw.
  rewrite Hauth. reflexivity.
Qed.

Lemma createInterview_no_session ctx args db :
  auth ctx = None -> createInterview args ctx db = Throw (Error "Unauthorized").
Proof.
  intros Hauth. unfold createInterview, bind, getUserIdentity, throw.
  rewrite Hauth. reflexivity.
Qed.

Lemma syncUser_existing ctx args db u :
  find (by_clerk_id (SyncUserArgs.clerkId args)) (users db) = Some u ->
  syncUser args ctx db = Ok (User._id u, db).
Proof.
  intros Hfind. unfold syncUser, bind, first, ret. rewrite Hfind. reflexivity.
Qed.

Lemma syncUser_new ctx args db :
  find (by_clerk_id (SyncUserArgs.clerkId args)) (users db) = None ->
  syncUser args ctx db =
    Ok (next_id db,
        mkDb (users db ++
                [User.mk (next_id db) (SyncUserArgs.clerkId args)
                   (SyncUserArgs.name args) (SyncUserArgs.email args)
                   (SyncUserArgs.image args) candidate])
          (interviews db) (comments db) (S (next_id db))).
Proof.
  intros Hfind. unfold syncUser, bind, first, insert_users, ret.
  rewrite Hfind. reflexivity.
Qed.

Lemma merge_same_but_status_endTime p (i : Interview.t number) :
  same_but_status_endTime i (merge p i).
Proof. repeat split. Qed.

Lemma patched_id id p (i : Interview.t number) :
  Interview._id (patched id p i) = Interview._id i.
Proof. unfold patched. destruct (has_id id i); reflexivity. Qed.

Lemma map_patched_ids id p (l : list (Interview.t number)) :
  map Interview._id (map (patched id p) l) = map Interview._id l.
Proof.
  rewrite map_map. apply map_ext. intros i. apply patched_id.
Qed.

Lemma find_patched id id' p (l : list (Interview.t number)) :
  find (has_id id') (map (patched id p) l) =
    option_map (patched id p) (find (has_id id') l).
Proof.
  induction l as [| i l IH]; [reflexivity |].
  cbn [map find]. unfold has_id at 1. rewrite patched_id.
  fold (has_id id' i). destruct (has_id id' i); [reflexivity | exact IH].
Qed.
End MutationEquations.

(** ** The invariant of the reachable states *)

Section Invariant.
Context {number : Type}.
Implicit Types (ctx : Ctx number) (db : Db number).

Lemma find_by_clerk_id_none c (l : list User.t) :
  find (by_clerk_id c) l = None -> ~ In c (map User.clerkId l).
Proof.
  intros Hfind Hin. apply in_map_iff in Hin. destruct Hin as [u [Hc Hu]].
  apply (find_none _ _ Hfind) in Hu. unfold by_clerk_id in Hu.
  rewrite Hc, String.eqb_refl in Hu. discriminate.
Qed.

Lemma filter_by_clerk_id_absent c (l : list User.t) :
  ~ In c (map User.clerkId l) -> filter (by_clerk_id c) l = [].
Proof.
  induction l as [| u l IH]; [reflexivity |].
  cbn [map filter]. intros Hnot. unfold by_clerk_id at 1.
  destruct (String.eqb_spec (User.clerkId u) c) as [Heq | Hne].
  - exfalso. apply Hnot. left. exact Heq.
  - apply IH. intros Hin. apply Hnot. right. exact Hin.
Qed.

(** With one record at most for a [clerkId], the range of the index
    holds the document [first] finds and no other. *)
Lemma filter_by_clerk_id_unique c (l : list User.t) :
  NoDup (map User.clerkId l) ->
  filter (by_clerk_id c) l =
    match find (by_clerk_id c) l with Some u => [u] | None => [] end.
Proof.
  induction l as [| u l IH]; [reflexivity |].
  cbn [map filter find]. intros Hnd. inversion Hnd as [| k ks Hnot Hnd']; subst.
  destruct (by_clerk_id c u) eqn:Hrange.
  - unfold by_clerk_id in Hrange. apply String.eqb_eq in Hrange. subst c.
    rewrite (filter_by_clerk_id_absent _ _ Hnot). reflexivity.
  - apply IH. exact Hnd'.
Qed.

Lemma well_formed_empty : well_formed (@empty_db number).
Proof. constructor; cbn; constructor. Qed.

Lemma Forall_fresh_S (l : list (Interview.t number)) n :
  Forall (fun i => (Interview._id i < n)%nat) l ->
  Forall (fun i => (Interview._id i < S n)%nat) l.
Proof. apply Forall_impl. intros i Hi. lia. Qed.

Lemma fresh_not_in (l : list (Interview.t number)) n :
  Forall (fun i => (Interview._id i < n)%nat) l -> ~ In n (map Interview._id l).
Proof.
  intros Hall Hin. apply in_map_iff in Hin. destruct Hin as [i [Hid Hi]].
  rewrite Forall_forall in Hall. specialize (Hall i Hi). lia.
Qed.

Lemma NoDup_snoc {A} (l : list A) a : NoDup l -> ~ In a l -> NoDup (l ++ [a]).
Proof.
  intros Hnd Hnot. apply NoDup_rev in Hnd.
  rewrite <- (rev_involutive (l ++ [a])). apply NoDup_rev.
  rewrite rev_app_distr. cbn. constructor; [| exact Hnd].
  rewrite <- in_rev. exact Hnot.
Qed.

Lemma syncUser_well_formed ctx args db :
  well_formed db -> well_formed (commit db (syncUser args ctx db)).
Proof.
  intros [Hu Hi Hf].
  destruct (find (by_clerk_id (SyncUserArgs.clerkId args)) (users db)) as [u |] eqn:Hfind.
  - rewrite (syncUser_existing _ _ _ _ Hfind). cbn. constructor; assumption.
  - rewrite (syncUser_new _ _ _ Hfind). cbn. constructor; cbn.
    + rewrite map_app. cbn. apply NoDup_snoc; [exact Hu |].
      apply find_by_clerk_id_none. exact Hfind.
    + exact Hi.
    + apply Forall_fresh_S. exact Hf.
Qed.

Lemma createInterview_well_formed ctx args db :
  well_formed db -> well_formed (commit db (createInterview args ctx db)).
Proof.
  intros [Hu Hi Hf].
  destruct (auth ctx) as [identity |] eqn:Hauth.
  - rewrite (createInterview_session _ _ _ _ Hauth). cbn. constructor; cbn.
    + exact Hu.
    + rewrite map_app. cbn. apply NoDup_snoc; [exact Hi |].
      apply fresh_not_in. exact Hf.
    + apply Forall_app. split; [apply Forall_fresh_S; exact Hf |].
      constructor; [cbn; lia | constructor].
  - rewrite (createInterview_no_session _ _ _ Hauth). cbn. constructor; assumption.
Qed.

Lemma updateInterview_well_formed ctx args db :
  well_formed db -> well_formed (commit db (updateInterview args ctx db)).
Proof.
  intros [Hu Hi Hf].
  destruct (auth ctx) as [identity |] eqn:Hauth.
  - rewrite (updateInterview_session _ _ _ _ Hauth). unfold patch_interviews.
    destruct (existsb _ _); cbn; constructor; cbn; try assumption.
    + fold (patched (UpdateInterviewArgs.id args) (status_patch args (now ctx))).
      rewrite map_patched_ids. exact Hi.
    + apply Forall_map. revert Hf. apply Forall_impl. intros i Hlt.
      fold (patched (UpdateInterviewArgs.id args) (status_patch args (now ctx)) i).
      rewrite patched_id. exact Hlt.
  - rewrite (updateInterview_no_session _ _ _ Hauth). cbn. constructor; assumption.
Qed.

Lemma addComment_well_formed ctx args db :
  well_formed db -> well_formed (commit db (addComment args ctx db)).
Proof.
  intros [Hu Hi Hf]. unfold addComment, bind, getUserIdentity, throw, insert_comments.
  destruct (auth ctx); cbn; constructor; cbn; try assumption.
  apply Forall_fresh_S. exact Hf.
Qed.

Lemma exec_well_formed step db : well_formed db -> well_formed (exec step db).
Proof.
  destruct step as [ctx [args | args | args | args]]; cbn [exec].
  - apply syncUser_well_formed.
  - apply createInterview_well_formed.
  - apply updateInterview_well_formed.
  - apply addComment_well_formed.
Qed.

Lemma run_well_formed trace : forall db, well_formed db -> well_formed (run trace db).
Proof.
  induction trace as [| step rest IH]; intros db Hwf; cbn [run].
  - exact Hwf.
  - apply IH. apply exec_well_formed. exact Hwf.
Qed.

Lemma reachable_well_formed db : reachable db -> well_formed db.
Proof.
  intros [trace <-]. apply run_well_formed. apply well_formed_empty.
Qed.

Lemma reachable_empty : reachable (@empty_db number).
Proof. exists []. reflexivity. Qed.
End Invariant.

(** ** Users: syncUser *)

Section SyncUserFacts.
Context {number : Type}.
Implicit Types (ctx : Ctx number) (db : Db number).

(** C1. In every reachable database, two calls of syncUser with the same
    clerkId, whatever the other arguments of either call, return the same
    internal id; the second call leaves the database as the first left
    it, so no field of the record is updated; and exactly one user record
    is stored for the clerkId, the one with the returned id. *)
Theorem syncUser_twice ctx1 ctx2 (args1 args2 : SyncUserArgs.t) db :
  reachable db ->
  SyncUserArgs.clerkId args2 = SyncUserArgs.clerkId args1 ->
  exists id db1 u,
    syncUser args1 ctx1 db = Ok (id, db1)
    /\ syncUser args2 ctx2 db1 = Ok (id, db1)
    /\ records_of (SyncUserArgs.clerkId args1) db1 = [u]
    /\ User._id u = id.
Proof.
  intros Hreach Hsame. apply reachable_well_formed in Hreach.
  pose proof (syncUser_well_formed ctx1 args1 db Hreach) as Hwf1.
  destruct (find (by_clerk_id (SyncUserArgs.clerkId args1)) (users db))
    as [u |] eqn:Hfind.
  - exists (User._id u), db, u.
    rewrite (syncUser_existing ctx1 args1 db u Hfind).
    split; [reflexivity |]. split.
    + apply syncUser_existing. rewrite Hsame. exact Hfind.
    + unfold records_of.
      rewrite (filter_by_clerk_id_unique _ _ (wf_users _ Hreach)), Hfind.
      split; reflexivity.
  - rewrite (syncUser_new ctx1 args1 db Hfind) in Hwf1 |- *. cbn [commit] in Hwf1.
    set (u := User.mk (next_id db) (SyncUserArgs.clerkId args1)
                (SyncUserArgs.name args1) (SyncUserArgs.email args1)
                (SyncUserArgs.image args1) candidate) in *.
    set (db1 := mkDb (users db ++ [u]) (interviews db) (comments db)
                  (S (next_id db))) in *.
    assert (Hfind1 : find (by_clerk_id (SyncUserArgs.clerkId args1)) (users db1)
                     = Some u).
    { cbn [users db1]. clear Hwf1.
      induction (users db) as [| v l IH].
      - cbn. unfold by_clerk_id. cbn. rewrite String.eqb_refl. reflexivity.
      - cbn [find app] in Hfind |- *.
        destruct (by_clerk_id (SyncUserArgs.clerkId args1) v); [discriminate |].
        apply IH. exact Hfind. }
    exists (next_id db), db1, u.
    split; [reflexivity |]. split.
    + rewrite (syncUser_existing ctx2 args2 db1 u); [reflexivity |].
      rewrite Hsame. exact Hfind1.
    + unfold records_of.
      rewrite (filter_by_clerk_id_unique _ _ (wf_users _ Hwf1)), Hfind1.
      split; reflexivity.
Qed.
End SyncUserFacts.

Lemma syncUser_twice_witness :
  reachable (@empty_db Z)
  /\ exists id db1 u,
       syncUser (SyncUserArgs.mk "u_1" "a@b.com" "Ann" None) (anonymous 1) empty_db
         = Ok (id, db1)
       /\ syncUser (SyncUserArgs.mk "u_1" "ann@c.org" "Ann Lee" (Some "pic.png"))
            (anonymous 2) db1 = Ok (id, db1)
       /\ records_of "u_1" db1 = [u]
       /\ User._id u = id.
Proof.
  split; [apply reachable_empty |].
  apply (syncUser_twice (anonymous 1) (anonymous 2)
           (SyncUserArgs.mk "u_1" "a@b.com" "Ann" None)
           (SyncUserArgs.mk "u_1" "ann@c.org" "Ann Lee" (Some "pic.png")) empty_db);
    [apply reachable_empty | reflexivity].
Defined.

(** ** Interviews: updateInterview *)

Section UpdateInterviewFacts.
Context {number : Type}.
Implicit Types (ctx : Ctx number) (db : Db number).

Lemma patched_frame (args : UpdateInterviewArgs.t) (t : number) (i : Interview.t number) :
  same_but_status_endTime i (patched (UpdateInterviewArgs.id args) (status_patch args t) i)
  /\ (UpdateInterviewArgs.status args <> "completed" ->
      Interview.endTime (patched (UpdateInterviewArgs.id args) (status_patch args t) i)
      = Interview.endTime i).
Proof.
  unfold patched. destruct (has_id _ i).
  - split; [apply merge_same_but_status_endTime |].
    intros Hne. unfold status_patch.
    destruct (String.eqb_spec (UpdateInterviewArgs.status args) "completed");
      [contradiction | reflexivity].
  - split; [repeat split | reflexivity].
Qed.

(** C10. For every authenticated call of updateInterview (the
    updateInterviewStatus of the specification): the users and the
    comments are untouched, and every stored interview keeps its id,
    title, description, startTime, streamCallId, candidateId and
    interviewerIds; when the new status is not "completed" it keeps its
    endTime too, so an endTime set earlier is not cleared.  The call
    succeeds exactly when the interview exists. *)
Theorem updateInterview_frame ctx identity (args : UpdateInterviewArgs.t) db :
  auth ctx = Some identity ->
  let db' := commit db (updateInterview args ctx db) in
  users db' = users db
  /\ comments db' = comments db
  /\ Forall2
       (fun i i' =>
          same_but_status_endTime i i'
          /\ (UpdateInterviewArgs.status args <> "completed" ->
              Interview.endTime i' = Interview.endTime i))
       (interviews db) (interviews db')
  /\ (get_interview db (UpdateInterviewArgs.id args) <> None <->
      updateInterview args ctx db = Ok (tt, db')).
Proof.
  intros Hauth. cbv zeta.
  rewrite (updateInterview_session _ _ _ _ Hauth). unfold patch_interviews, get_interview.
  assert (Hsame : forall l : list (Interview.t number),
             Forall2
               (fun i i' =>
                  same_but_status_endTime i i'
                  /\ (UpdateInterviewArgs.status args <> "completed" ->
                      Interview.endTime i' = Interview.endTime i)) l l).
  { induction l; constructor; [split; [repeat split | reflexivity] | assumption]. }
  destruct (existsb (has_id (UpdateInterviewArgs.id args)) (interviews db)) eqn:Hex;
    cbn [commit users comments interviews].
  - split; [reflexivity |]. split; [reflexivity |]. split.
    + clear Hex. induction (interviews db) as [| i l IH]; cbn [map]; constructor.
      * apply (patched_frame args (now ctx) i).
      * exact IH.
    + split; [reflexivity |]. intros _.
      apply existsb_exists in Hex. destruct Hex as [i [Hin Hid]].
      intros Hnone. apply (find_none _ _ Hnone) in Hin. congruence.
  - split; [reflexivity |]. split; [reflexivity |]. split; [apply Hsame |].
    split; [| discriminate].
    intros Hsome. exfalso. apply Hsome.
    destruct (find (has_id (UpdateInterviewArgs.id args)) (interviews db)) eqn:Hfind;
      [| reflexivity].
    apply find_some in Hfind. destruct Hfind as [Hin Hid].
    assert (existsb (has_id (UpdateInterviewArgs.id args)) (interviews db) = true)
      by (apply existsb_exists; eauto).
    congruence.
Qed.
End UpdateInterviewFacts.

(** ** Interviews: what a call does to one stored interview *)

Section StoredInterview.
Context {number : Type}.
Implicit Types (ctx : Ctx number) (db : Db number).

Lemma find_snoc {A} (f : A -> bool) (l : list A) (x : A) :
  find f (l ++ [x]) =
    match find f l with
    | Some y => Some y
    | None => if f x then Some x else None
    end.
Proof.
  induction l as [| a l IH]; cbn [app find].
  - reflexivity.
  - destruct (f a); [reflexivity | exact IH].
Qed.

Lemma find_has_id id (l : list (Interview.t number)) i :
  find (has_id id) l = Some i -> Interview._id i = id.
Proof.
  intros Hfind. apply find_some in Hfind. destruct Hfind as [_ Hid].
  apply Nat.eqb_eq. exact Hid.
Qed.

Lemma existsb_has_id id (l : list (Interview.t number)) :
  existsb (has_id id) l = match find (has_id id) l with Some _ => true | None => false end.
Proof.
  induction l as [| i l IH]; cbn [existsb find]; [reflexivity |].
  destruct (has_id id i); [reflexivity | exact IH].
Qed.

(** With distinct ids, a stored interview is the one its id looks up. *)
Lemma get_interview_stored db (i : Interview.t number) :
  well_formed db -> In i (interviews db) ->
  get_interview db (Interview._id i) = Some i.
Proof.
  intros Hwf. unfold get_interview. pose proof (wf_ids _ Hwf) as Hnd. clear Hwf.
  induction (interviews db) as [| j l IH]; intros Hin; [contradiction |].
  cbn [map] in Hnd. inversion Hnd as [| k ks Hnot Hnd']; subst.
  cbn [find]. unfold has_id at 1.
  destruct Hin as [-> | Hin].
  - rewrite Nat.eqb_refl. reflexivity.
  - destruct (Nat.eqb_spec (Interview._id j) (Interview._id i)) as [Heq | Hne].
    + exfalso. apply Hnot. rewrite Heq. apply in_map. exact Hin.
    + apply IH; assumption.
Qed.

(** The interview stored under [id] after one call. *)
Lemma get_interview_exec ctx (call : Call number) db id :
  get_interview (exec (ctx, call) db) id =
    match call, auth ctx with
    | CallCreateInterview args, Some _ =>
        match get_interview db id with
        | Some i => Some i
        | None => if Nat.eqb (next_id db) id then Some (created args (next_id db)) else None
        end
    | CallUpdateInterview args, Some _ =>
        option_map (patched (UpdateInterviewArgs.id args) (status_patch args (now ctx)))
          (get_interview db id)
    | _, _ => get_interview db id
    end.
Proof.
  destruct call as [args | args | args | args]; cbn [exec].
  - unfold syncUser, bind, first, ret, insert_users.
    destruct (find _ (users db)); destruct (auth ctx); reflexivity.
  - destruct (auth ctx) as [identity |] eqn:Hauth.
    + rewrite (createInterview_session _ _ _ _ Hauth). cbn [commit].
      unfold get_interview. cbn [interviews]. rewrite find_snoc. reflexivity.
    + rewrite (createInterview_no_session _ _ _ Hauth). reflexivity.
  - destruct (auth ctx) as [identity |] eqn:Hauth.
    + rewrite (updateInterview_session _ _ _ _ Hauth). unfold patch_interviews.
      rewrite existsb_has_id. unfold get_interview.
      destruct (find (has_id (UpdateInterviewArgs.id args)) (interviews db))
        as [j |] eqn:Hj; cbn [commit interviews].
      * apply find_patched.
      * destruct (find (has_id id) (interviews db)) as [i |] eqn:Hi; [| reflexivity].
        cbn [option_map]. unfold patched.
        destruct (has_id (UpdateInterviewArgs.id args) i) eqn:Hid; [| reflexivity].
        apply find_some in Hi. destruct Hi as [Hin _].
        apply (find_none _ _ Hj) in Hin. congruence.
    + rewrite (updateInterview_no_session _ _ _ Hauth). reflexivity.
  - unfold addComment, bind, getUserIdentity, throw, insert_comments.
    destruct (auth ctx); reflexivity.
Qed.

(** No call removes an interview or touches the fields of the frame. *)
Lemma get_interview_exec_keeps step db id (i : Interview.t number) :
  get_interview db id = Some i ->
  exists i', get_interview (exec step db) id = Some i' /\ same_but_status_endTime i i'.
Proof.
  intros Hget. destruct step as [ctx call]. rewrite get_interview_exec, Hget.
  assert (Hrefl : same_but_status_endTime i i) by (repeat split).
  destruct call as [args | args | args | args]; destruct (auth ctx);
    try (exists i; split; [reflexivity | exact Hrefl]).
  cbn [option_map]. eexists. split; [reflexivity |].
  apply (patched_frame args (now ctx) i).
Qed.

Lemma get_interview_run_keeps trace : forall db id (i : Interview.t number),
  get_interview db id = Some i ->
  exists i', get_interview (run trace db) id = Some i' /\ same_but_status_endTime i i'.
Proof.
  induction trace as [| step rest IH]; intros db id i Hget; cbn [run].
  - exists i. split; [exact Hget | repeat split].
  - destruct (get_interview_exec_keeps step db id i Hget) as [i1 [Hget1 Hsame1]].
    destruct (IH _ _ _ Hget1) as [i2 [Hget2 Hsame2]].
    exists i2. split; [exact Hget2 |].
    unfold same_but_status_endTime in *.
    destruct Hsame1 as (? & ? & ? & ? & ? & ? & ?).
    destruct Hsame2 as (? & ? & ? & ? & ? & ? & ?).
    repeat split; congruence.
Qed.

(** The [endTime] stored for [id] after one call: the clock of the call
    when it completes the interview, the [endTime] of before otherwise. *)
Lemma endTime_in_exec step db id :
  endTime_in (exec step db) id =
    if completes db step id then Some (now (fst step)) else endTime_in db id.
Proof.
  destruct step as [ctx call]. unfold endTime_in, completes. cbn [fst snd].
  rewrite get_interview_exec.
  destruct call as [args | args | args | args]; try (destruct (auth ctx); reflexivity).
  - destruct (auth ctx); [| reflexivity].
    destruct (get_interview db id); [reflexivity |].
    destruct (Nat.eqb (next_id db) id); reflexivity.
  - destruct (auth ctx); [| reflexivity]. cbn [andb].
    rewrite existsb_has_id. unfold get_interview.
    destruct (find (has_id id) (interviews db)) as [i |] eqn:Hi; cbn [option_map].
    + apply find_has_id in Hi. unfold patched, has_id. rewrite Hi.
      rewrite (Nat.eqb_sym id). rewrite andb_true_r.
      destruct (Nat.eqb (UpdateInterviewArgs.id args) id); [| reflexivity].
      cbn [andb merge Interview.endTime status_patch patch_endTime].
      destruct (UpdateInterviewArgs.status args =? "completed"); reflexivity.
    + rewrite andb_false_r. reflexivity.
Qed.

Lemma endTime_in_run trace : forall db id,
  endTime_in (run trace db) id =
    match completed_at trace db id with
    | Some t => Some t
    | None => endTime_in db id
    end.
Proof.
  induction trace as [| step rest IH]; intros db id; cbn [run completed_at].
  - reflexivity.
  - rewrite IH. destruct (completed_at rest (exec step db) id); [reflexivity |].
    rewrite endTime_in_exec. destruct (completes db step id); reflexivity.
Qed.
End StoredInterview.

(** ** Interviews: endTime *)

Section EndTime.
Context {number : Type}.
Implicit Types (ctx : Ctx number) (db : Db number).

(** C2, as the code has it. For every interview stored after any sequence
    of calls from the empty database, endTime is the clock reading
    (Date.now(), never an argument of the client) of the last
    updateInterview call that set this interview to "completed" with a
    valid session, and it is absent exactly when there was no such call.
    Creation never sets it, whatever the status given, and a later update
    to another status does not clear it. *)
Theorem endTime_is_last_completion (trace : list (Ctx number * Call number))
    (i : Interview.t number) :
  In i (interviews (run trace empty_db)) ->
  Interview.endTime i = completed_at trace empty_db (Interview._id i).
Proof.
  intros Hin.
  pose proof (run_well_formed trace empty_db well_formed_empty) as Hwf.
  pose proof (endTime_in_run trace empty_db (Interview._id i)) as Hrun.
  unfold endTime_in at 1 in Hrun.
  rewrite (get_interview_stored _ _ Hwf Hin) in Hrun. rewrite Hrun.
  destruct (completed_at trace empty_db (Interview._id i)); reflexivity.
Qed.
End EndTime.

Lemma endTime_is_last_completion_witness :
  let i := Interview.mk 0 "Backend interview" None 2000%Z (Some 1500%Z) "scheduled"
             "call_1" "user_bob" "user_alice,user_carol" in
  In i (interviews (run completed_then_rescheduled empty_db))
  /\ Interview.endTime i = completed_at completed_then_rescheduled empty_db 0.
Proof.
  cbv zeta. split; [left; reflexivity |].
  apply (endTime_is_last_completion completed_then_rescheduled
           (Interview.mk 0 "Backend interview" None 2000%Z (Some 1500%Z) "scheduled"
              "call_1" "user_bob" "user_alice,user_carol")).
  left. reflexivity.
Defined.

(** C2 fails as stated: an interview completed at 1500 and then set back
    to "scheduled" keeps its endTime, so endTime is set although the status
    is not "completed". *)
Lemma rescheduled_keeps_endTime :
  exists i,
    In i (interviews (run completed_then_rescheduled empty_db))
    /\ Interview.status i = "scheduled"
    /\ Interview.endTime i = Some 1500%Z
    /\ ~ endTime_iff_completed i.
Proof.
  exists (Interview.mk 0 "Backend interview" None 2000%Z (Some 1500%Z) "scheduled"
            "call_1" "user_bob" "user_alice,user_carol").
  split; [left; reflexivity |]. split; [reflexivity |]. split; [reflexivity |].
  unfold endTime_iff_completed. cbn. intros [Hset _].
  assert (H : "scheduled" = "completed") by (apply Hset; discriminate).
  discriminate H.
Qed.

(** The other direction fails too: createInterview stores the status the
    client gives, and with "completed" the interview has no endTime. *)
Lemma created_as_completed_has_no_endTime :
  exists i,
    In i (interviews (run created_as_completed empty_db))
    /\ Interview.status i = "completed"
    /\ Interview.endTime i = None
    /\ ~ endTime_iff_completed i.
Proof.
  exists (Interview.mk 0 "Backend interview" None 900%Z None "completed"
            "call_1" "user_bob" "user_alice,user_carol").
  split; [left; reflexivity |]. split; [reflexivity |]. split; [reflexivity |].
  unfold endTime_iff_completed. cbn. intros [_ Hset]. apply Hset; reflexivity.
Qed.

Section CreatedThenCompleted.
Implicit Types (ctx : Ctx Z) (db : Db Z).

Lemma get_interview_fresh db :
  well_formed db -> get_interview db (next_id db) = None.
Proof.
  intros Hwf. unfold get_interview.
  destruct (find (has_id (next_id db)) (interviews db)) as [i |] eqn:Hfind;
    [| reflexivity].
  exfalso. apply (fresh_not_in _ _ (wf_fresh _ Hwf)).
  rewrite <- (find_has_id _ _ _ Hfind). apply in_map.
  apply find_some in Hfind. apply Hfind.
Qed.

(** C3, as the code has it. An interview created with status "scheduled"
    has no endTime after creation.  After any further calls, an
    authenticated updateInterview of it to "completed" succeeds and sets
    endTime to the clock reading of that call; startTime is still the one
    given at creation.  So endTime is at or after startTime exactly when
    the call is made at or after startTime. *)
Theorem scheduled_then_completed ctx1 ctx2 identity1 identity2
    (args : CreateInterviewArgs.t Z) (trace : list (Ctx Z * Call Z)) db :
  reachable db ->
  auth ctx1 = Some identity1 ->
  auth ctx2 = Some identity2 ->
  CreateInterviewArgs.status args = "scheduled" ->
  exists id db1 i1 db2 i2,
    createInterview args ctx1 db = Ok (id, db1)
    /\ get_interview db1 id = Some i1
    /\ Interview.status i1 = "scheduled"
    /\ Interview.endTime i1 = None
    /\ updateInterview (UpdateInterviewArgs.mk id "completed") ctx2 (run trace db1)
       = Ok (tt, db2)
    /\ get_interview db2 id = Some i2
    /\ Interview.status i2 = "completed"
    /\ Interview.endTime i2 = Some (now ctx2)
    /\ Interview.startTime i2 = CreateInterviewArgs.startTime args
    /\ ((exists t, Interview.endTime i2 = Some t /\ (Interview.startTime i2 <= t)%Z)
        <-> (CreateInterviewArgs.startTime args <= now ctx2)%Z).
Proof.
  intros Hreach Hauth1 Hauth2 Hstatus. apply reachable_well_formed in Hreach.
  set (id := next_id db).
  set (db1 := mkDb (users db) (interviews db ++ [created args id]) (comments db) (S id)).
  assert (Hget1 : get_interview db1 id = Some (created args id)).
  { unfold get_interview, db1. cbn [interviews]. rewrite find_snoc.
    fold (get_interview db id). unfold id at 1. rewrite (get_interview_fresh _ Hreach).
    unfold has_id. cbn [created Interview._id]. rewrite Nat.eqb_refl. reflexivity. }
  destruct (get_interview_run_keeps trace db1 id _ Hget1) as [i' [Hget' Hsame]].
  destruct Hsame as (Hid & _ & _ & Hstart & _).
  set (upd := UpdateInterviewArgs.mk id "completed").
  set (i2 := patched id (status_patch upd (now ctx2)) i').
  exists id, db1, (created args id).
  exists (commit (run trace db1) (updateInterview upd ctx2 (run trace db1))), i2.
  split; [apply (createInterview_session _ _ _ _ Hauth1) |].
  split; [exact Hget1 |]. split; [exact Hstatus |]. split; [reflexivity |].
  assert (Hupd := updateInterview_session ctx2 identity2 upd (run trace db1) Hauth2).
  cbn [UpdateInterviewArgs.id upd] in Hupd.
  unfold patch_interviews in Hupd. rewrite existsb_has_id in Hupd.
  fold (get_interview (run trace db1) id) in Hupd. rewrite Hget' in Hupd.
  fold upd. rewrite Hupd. cbn [commit].
  split; [reflexivity |].
  assert (Hi2 : i2 = merge (status_patch upd (now ctx2)) i').
  { unfold i2, patched, has_id. rewrite Hid. cbn [created Interview._id].
    rewrite Nat.eqb_refl. reflexivity. }
  split.
  { unfold get_interview. cbn [interviews].
    fold (patched id (status_patch upd (now ctx2))).
    rewrite find_patched. fold (get_interview (run trace db1) id).
    rewrite Hget'. reflexivity. }
  rewrite Hi2. cbn [merge status_patch patch_status patch_endTime upd
                      UpdateInterviewArgs.status Interview.status Interview.endTime
                      Interview.startTime].
  rewrite String.eqb_refl. rewrite Hstart. cbn [created Interview.startTime].
  split; [reflexivity |]. split; [reflexivity |]. split; [reflexivity |].
  split.
  - intros [t [Ht Hle]]. inversion Ht. subst t. exact Hle.
  - intros Hle. exists (now ctx2). split; [reflexivity | exact Hle].
Qed.
End CreatedThenCompleted.

Lemma scheduled_then_completed_witness :
  reachable (@empty_db Z)
  /\ auth (as_alice 1000) = Some alice
  /\ CreateInterviewArgs.status (sample_interview 2000 "scheduled") = "scheduled"
  /\ exists id db1 i1 db2 i2,
       createInterview (sample_interview 2000 "scheduled") (as_alice 1000) empty_db
         = Ok (id, db1)
       /\ get_interview db1 id = Some i1
       /\ Interview.status i1 = "scheduled"
       /\ Interview.endTime i1 = None
       /\ updateInterview (UpdateInterviewArgs.mk id "completed") (as_alice 2500)
            (run [] db1) = Ok (tt, db2)
       /\ get_interview db2 id = Some i2
       /\ Interview.status i2 = "completed"
       /\ Interview.endTime i2 = Some (now (as_alice 2500))
       /\ Interview.startTime i2
          = CreateInterviewArgs.startTime (sample_interview 2000 "scheduled")
       /\ ((exists t, Interview.endTime i2 = Some t /\ (Interview.startTime i2 <= t)%Z)
           <-> (CreateInterviewArgs.startTime (sample_interview 2000 "scheduled")
                <= now (as_alice 2500))%Z).
Proof.
  split; [apply reachable_empty |]. split; [reflexivity |]. split; [reflexivity |].
  apply (scheduled_then_completed (as_alice 1000) (as_alice 2500) alice alice
           (sample_interview 2000 "scheduled") [] empty_db);
    [apply reachable_empty | reflexivity | reflexivity | reflexivity].
Defined.

(** C3 fails as stated: the interview that starts at 2000 is created with
    status "scheduled" (no endTime) and completed at 1500; its endTime is
    then 1500, before its startTime. *)
Lemma completed_before_startTime :
  exists db1 i1 db2 i2,
    createInterview (sample_interview 2000 "scheduled") (as_alice 1000) empty_db
      = Ok (0, db1)
    /\ get_interview db1 0 = Some i1
    /\ Interview.status i1 = "scheduled"
    /\ Interview.endTime i1 = None
    /\ updateInterview (UpdateInterviewArgs.mk 0 "completed") (as_alice 1500) db1
       = Ok (tt, db2)
    /\ get_interview db2 0 = Some i2
    /\ Interview.endTime i2 = Some 1500%Z
    /\ Interview.startTime i2 = 2000%Z
    /\ ~ (exists t, Interview.endTime i2 = Some t /\ (Interview.startTime i2 <= t)%Z).
Proof.
  do 4 eexists.
  split; [reflexivity |]. split; [reflexivity |]. split; [reflexivity |].
  split; [reflexivity |]. split; [reflexivity |]. split; [reflexivity |].
  split; [reflexivity |]. split; [reflexivity |].
  intros [t [Ht Hle]]. cbn in Ht, Hle. inversion Ht. subst t. lia.
Qed.

Lemma updateInterview_frame_witness :
  let db := run created_and_completed empty_db in
  let args := UpdateInterviewArgs.mk 0 "scheduled" in
  auth (as_alice 1600) = Some alice
  /\ let db' := commit db (updateInterview args (as_alice 1600) db) in
     users db' = users db
     /\ comments db' = comments db
     /\ Forall2
          (fun i i' =>
             same_but_status_endTime i i'
             /\ (UpdateInterviewArgs.status args <> "completed" ->
                 Interview.endTime i' = Interview.endTime i))
          (interviews db) (interviews db')
     /\ (get_interview db (UpdateInterviewArgs.id args) <> None <->
         updateInterview args (as_alice 1600) db = Ok (tt, db')).
Proof.
  cbv zeta. split; [reflexivity |].
  apply (updateInterview_frame (as_alice 1600) alice
           (UpdateInterviewArgs.mk 0 "scheduled") (run created_and_completed empty_db)).
  reflexivity.
Defined.

(** ** The webhook *)

Section WebhookFacts.
Context {number : Type}.
Variable Webhook : Type.
Variable new_Webhook : string -> Result Webhook.
Variable verify : Webhook -> string -> SvixHeaders -> Result WebhookEvent.
Implicit Types (ctx : Ctx number) (db : Db number).

(** The handler up to the verification, for a request that gets there. *)
Lemma clerk_webhook_verification env request r ctx db :
  verification Webhook new_Webhook verify env request r ->
  clerk_webhook Webhook new_Webhook verify env request ctx db =
    match r with
    | Throw _ => (Respond (mkResponse "invalid svix payload" 400), db)
    | Ok evt =>
        if type evt =? "user.created" then
          match UserJSON.email_addresses (data evt) with
          | [] =>
              (Thrown (TypeError
                 "Cannot read properties of undefined (reading 'email_address')"), db)
          | e0 :: _ =>
              match runMutation
                      (syncUser
                         (SyncUserArgs.mk (UserJSON.id (data evt)) (email_address e0)
                            (trim (or_empty (UserJSON.first_name (data evt)) ++ " "
                                   ++ or_empty (UserJSON.last_name (data evt))))
                            (UserJSON.image_url (data evt)))) ctx db with
              | (Throw _, db') => (Respond (mkResponse "error creating user" 500), db')
              | (Ok _, db') =>
                  (Respond (mkResponse "webhook processed successfully" 200), db')
              end
          end
        else (Respond (mkResponse "webhook processed successfully" 200), db)
    end.
Proof.
  intros (secret & id & timestamp & signature & body & wh
          & Hsecret & Hid & Htime & Hsig & Hjson & Hnew & Hverify).
  unfold clerk_webhook.
  rewrite Hsecret, Hid, Htime, Hsig, Hjson, Hnew, Hverify. reflexivity.
Qed.

(** A request that reaches the verification and whose signature Svix
    does not verify, whatever it throws, is answered with status 400, and
    the database is the one before. *)
Lemma bad_signature_rejected env request e ctx db :
  verification Webhook new_Webhook verify env request (Throw e) ->
  clerk_webhook Webhook new_Webhook verify env request ctx db =
    (Respond (mkResponse "invalid svix payload" 400), db).
Proof.
  intros Hver. rewrite (clerk_webhook_verification _ _ _ ctx db Hver). reflexivity.
Qed.

(** C6, as the code has it. For every request that does not pass the
    signature verification, the handler inserts no user record: the
    database is the one before, and the handler answers with a 400
    response or throws, never with 200.  When the request reaches the
    verification (the secret is configured and Svix accepts it, the three
    headers are there, the body is JSON) and Svix does not verify the
    signature, the answer is the 400 response "invalid svix payload". *)
Theorem unverified_request_rejected env request ctx db :
  (forall evt, ~ verification Webhook new_Webhook verify env request (Ok evt)) ->
  exists outcome,
    clerk_webhook Webhook new_Webhook verify env request ctx db = (outcome, db)
    /\ ((exists text, outcome = Respond (mkResponse text 400))
        \/ (exists e, outcome = Thrown e))
    /\ (forall e,
          verification Webhook new_Webhook verify env request (Throw e) ->
          outcome = Respond (mkResponse "invalid svix payload" 400)).
Proof.
  intros Hnone.
  destruct (clerk_webhook Webhook new_Webhook verify env request ctx db)
    as [outcome db'] eqn:Hrun.
  assert (Hclass : db' = db
                   /\ ((exists text, outcome = Respond (mkResponse text 400))
                       \/ (exists e, outcome = Thrown e))).
  { unfold clerk_webhook in Hrun.
    destruct (when_truthy (CLERK_WEBHOOK_SECRET env)) as [secret |] eqn:Hsecret;
      [| inversion Hrun; subst; split; [reflexivity | right; eexists; reflexivity]].
    destruct (when_truthy (headers_get request "svix-id")) as [id |] eqn:Hid;
      [| inversion Hrun; subst; split; [reflexivity | left; eexists; reflexivity]].
    destruct (when_truthy (headers_get request "svix-timestamp")) as [timestamp |]
      eqn:Htime;
      [| inversion Hrun; subst; split; [reflexivity | left; eexists; reflexivity]].
    destruct (when_truthy (headers_get request "svix-signature")) as [signature |]
      eqn:Hsig;
      [| inversion Hrun; subst; split; [reflexivity | left; eexists; reflexivity]].
    destruct (json request) as [body |] eqn:Hjson;
      [| inversion Hrun; subst; split; [reflexivity | right; eexists; reflexivity]].
    destruct (new_Webhook secret) as [wh |] eqn:Hnew;
      [| inversion Hrun; subst; split; [reflexivity | right; eexists; reflexivity]].
    destruct (verify wh body (mkSvixHeaders id timestamp signature)) as [evt |]
      eqn:Hverify;
      [| inversion Hrun; subst; split; [reflexivity | left; eexists; reflexivity]].
    exfalso. apply (Hnone evt).
    exists secret, id, timestamp, signature, body, wh. repeat split; assumption. }
  destruct Hclass as [-> Hclass].
  exists outcome. split; [reflexivity |]. split; [exact Hclass |].
  intros e Hver. rewrite (clerk_webhook_verification _ _ _ ctx db Hver) in Hrun.
  inversion Hrun. reflexivity.
Qed.

(** A missing or empty Svix header is answered with 400 as well. *)
Lemma missing_header_rejected env request secret ctx db :
  when_truthy (CLERK_WEBHOOK_SECRET env) = Some secret ->
  when_truthy (headers_get request "svix-id") = None
  \/ when_truthy (headers_get request "svix-timestamp") = None
  \/ when_truthy (headers_get request "svix-signature") = None ->
  clerk_webhook Webhook new_Webhook verify env request ctx db = (Respond (mkResponse "missing svix headers" 400), db).
Proof.
  intros Hsecret Hmissing. unfold clerk_webhook. rewrite Hsecret.
  destruct Hmissing as [H | [H | H]]; rewrite H;
    repeat match goal with
           | |- context [match when_truthy ?o with _ => _ end] =>
               destruct (when_truthy o)
           end; reflexivity.
Qed.

(** C7. For a verified event of type "user.created" whose
    email_addresses is empty, the handler does not return a response: it
    throws the TypeError of reading email_address of undefined, the
    first element of the empty list; nothing guards the access.  The
    database is unchanged. *)
Theorem empty_email_addresses_faults env request evt ctx db :
  verification Webhook new_Webhook verify env request (Ok evt) ->
  type evt = "user.created" ->
  UserJSON.email_addresses (data evt) = [] ->
  clerk_webhook Webhook new_Webhook verify env request ctx db =
    (Thrown (TypeError "Cannot read properties of undefined (reading 'email_address')"),
     db).
Proof.
  intros Hver Htype Hempty. rewrite (clerk_webhook_verification _ _ _ ctx db Hver).
  rewrite Htype, Hempty. reflexivity.
Qed.

(** C8. A verified POST of the event user.created with id "u_1", the
    one email address "a@b.com", first_name "Ann" and no last_name, on a
    database with no record for "u_1", is answered with 200 and stores
    one user record: clerkId "u_1", email "a@b.com", name "Ann", role
    candidate.  The same request again is answered with 200 and leaves
    the database as it is: there is still one record for "u_1". *)
Theorem ann_created_once env request ctx ctx' db :
  verification Webhook new_Webhook verify env request (Ok ann_created) ->
  records_of "u_1" db = [] ->
  let ann := User.mk (next_id db) "u_1" "Ann" "a@b.com" None candidate in
  let db1 := mkDb (users db ++ [ann]) (interviews db) (comments db) (S (next_id db)) in
  clerk_webhook Webhook new_Webhook verify env request ctx db =
    (Respond (mkResponse "webhook processed successfully" 200), db1)
  /\ records_of "u_1" db1 = [ann]
  /\ clerk_webhook Webhook new_Webhook verify env request ctx' db1 =
       (Respond (mkResponse "webhook processed successfully" 200), db1).
Proof.
  intros Hver Hnone. cbv zeta.
  assert (Hfind : find (by_clerk_id "u_1") (users db) = None).
  { unfold records_of in Hnone.
    destruct (find (by_clerk_id "u_1") (users db)) as [u |] eqn:Hfind; [| reflexivity].
    apply find_some in Hfind. destruct Hfind as [Hin Hrange].
    assert (Hf : In u (filter (by_clerk_id "u_1") (users db)))
      by (apply filter_In; split; assumption).
    rewrite Hnone in Hf. contradiction. }
  set (ann := User.mk (next_id db) "u_1" "Ann" "a@b.com" None candidate).
  set (db1 := mkDb (users db ++ [ann]) (interviews db) (comments db) (S (next_id db))).
  set (args := SyncUserArgs.mk "u_1" "a@b.com" "Ann" None).
  assert (Hrecords : records_of "u_1" db1 = [ann]).
  { unfold records_of, db1. cbn [users]. rewrite filter_app.
    fold (records_of "u_1" db). rewrite Hnone. reflexivity. }
  assert (Hfind1 : find (by_clerk_id "u_1") (users db1) = Some ann).
  { unfold db1. cbn [users]. rewrite find_snoc, Hfind. reflexivity. }
  split; [| split; [exact Hrecords |]].
  - rewrite (clerk_webhook_verification _ _ _ ctx db Hver).
    change (type ann_created =? "user.created") with true. cbv iota.
    change (UserJSON.email_addresses (data ann_created)) with [mkEmail "a@b.com"].
    cbv iota.
    change (SyncUserArgs.mk _ _ _ _) with args.
    unfold runMutation. rewrite (syncUser_new ctx args db Hfind). reflexivity.
  - rewrite (clerk_webhook_verification _ _ _ ctx' db1 Hver).
    change (type ann_created =? "user.created") with true. cbv iota.
    change (UserJSON.email_addresses (data ann_created)) with [mkEmail "a@b.com"].
    cbv iota.
    change (SyncUserArgs.mk _ _ _ _) with args.
    unfold runMutation. rewrite (syncUser_existing ctx' args db1 ann Hfind1).
    reflexivity.
Qed.
End WebhookFacts.

Lemma unverified_request_rejected_witness :
  (forall evt,
     ~ verification string demo_new_Webhook (demo_verify ann_created) demo_env
         (demo_request "v1,tampered") (Ok evt))
  /\ verification string demo_new_Webhook (demo_verify ann_created) demo_env
       (demo_request "v1,tampered") (Throw (Error "No matching signature found"))
  /\ exists outcome,
       clerk_webhook string demo_new_Webhook (demo_verify ann_created) demo_env
         (demo_request "v1,tampered") (anonymous 7) empty_db = (outcome, empty_db)
       /\ ((exists text, outcome = Respond (mkResponse text 400))
           \/ (exists e, outcome = Thrown e))
       /\ (forall e,
             verification string demo_new_Webhook (demo_verify ann_created) demo_env
               (demo_request "v1,tampered") (Throw e) ->
             outcome = Respond (mkResponse "invalid svix payload" 400)).
Proof.
  assert (Hnone : forall evt,
            ~ verification string demo_new_Webhook (demo_verify ann_created) demo_env
                (demo_request "v1,tampered") (Ok evt)).
  { intros evt (secret & id & timestamp & signature & body & wh
                & Hsecret & Hid & Htime & Hsig & Hjson & Hnew & Hverify).
    vm_compute in Hsecret, Hsig, Hnew. inversion Hsecret. inversion Hsig.
    inversion Hnew. subst. vm_compute in Hverify. discriminate Hverify. }
  split; [exact Hnone |]. split.
  { exists "whsec_demo", "msg_1", "1700000000", "v1,tampered", "{}", "whsec_demo".
    repeat split. }
  apply (unverified_request_rejected string demo_new_Webhook (demo_verify ann_created)
           demo_env (demo_request "v1,tampered") (anonymous 7) empty_db Hnone).
Defined.

(** C6 fails as stated: the signature "v1,tampered" does not verify
    against the secret, whatever the body, and the body of the request is
    not JSON; request.json() throws before the signature is looked at, so
    the handler throws and returns no response, of status 400 or other.
    No user record is inserted. *)
Lemma tampered_not_json_gets_no_400 :
  (forall body,
     demo_verify ann_created "whsec_demo" body
       (mkSvixHeaders "msg_1" "1700000000" "v1,tampered")
     = Throw (Error "No matching signature found"))
  /\ clerk_webhook string demo_new_Webhook (demo_verify ann_created) demo_env
       tampered_not_json_request (anonymous 7) empty_db
     = (Thrown (Error "Unexpected token in JSON"), empty_db)
  /\ ~ (exists r,
         fst (clerk_webhook string demo_new_Webhook (demo_verify ann_created) demo_env
                tampered_not_json_request (anonymous 7) (@empty_db Z))
         = Respond r).
Proof.
  split; [intros body; reflexivity |]. split; [reflexivity |].
  intros [r Hr]. cbn in Hr. discriminate Hr.
Qed.

Lemma empty_email_addresses_faults_witness :
  verification string demo_new_Webhook (demo_verify no_email_created) demo_env
    (demo_request "v1,whsec_demo") (Ok no_email_created)
  /\ type no_email_created = "user.created"
  /\ UserJSON.email_addresses (data no_email_created) = []
  /\ clerk_webhook string demo_new_Webhook (demo_verify no_email_created) demo_env
       (demo_request "v1,whsec_demo") (anonymous 7) empty_db
     = (Thrown (TypeError "Cannot read properties of undefined (reading 'email_address')"),
        empty_db).
Proof.
  assert (Hver : verification string demo_new_Webhook (demo_verify no_email_created)
                   demo_env (demo_request "v1,whsec_demo") (Ok no_email_created)).
  { exists "whsec_demo", "msg_1", "1700000000", "v1,whsec_demo", "{}", "whsec_demo".
    repeat split. }
  split; [exact Hver |]. split; [reflexivity |]. split; [reflexivity |].
  apply (empty_email_addresses_faults string demo_new_Webhook
           (demo_verify no_email_created) demo_env (demo_request "v1,whsec_demo")
           no_email_created (anonymous 7) empty_db Hver); reflexivity.
Defined.

Lemma ann_created_once_witness :
  verification string demo_new_Webhook (demo_verify ann_created) demo_env
    (demo_request "v1,whsec_demo") (Ok ann_created)
  /\ records_of "u_1" (@empty_db Z) = []
  /\ let ann := User.mk 0 "u_1" "Ann" "a@b.com" None candidate in
     let db1 := mkDb [ann] [] [] 1 in
     clerk_webhook string demo_new_Webhook (demo_verify ann_created) demo_env
       (demo_request "v1,whsec_demo") (anonymous 7) empty_db
     = (Respond (mkResponse "webhook processed successfully" 200), db1)
     /\ records_of "u_1" db1 = [ann]
     /\ clerk_webhook string demo_new_Webhook (demo_verify ann_created) demo_env
          (demo_request "v1,whsec_demo") (anonymous 8) db1
        = (Respond (mkResponse "webhook processed successfully" 200), db1).
Proof.
  assert (Hver : verification string demo_new_Webhook (demo_verify ann_created) demo_env
                   (demo_request "v1,whsec_demo") (Ok ann_created)).
  { exists "whsec_demo", "msg_1", "1700000000", "v1,whsec_demo", "{}", "whsec_demo".
    repeat split. }
  split; [exact Hver |]. split; [reflexivity |].
  apply (ann_created_once string demo_new_Webhook (demo_verify ann_created) demo_env
           (demo_request "v1,whsec_demo") (anonymous 7) (anonymous 8) empty_db Hver).
  reflexivity.
Defined.

(** * Further properties *)

(** ** The webhook, path by path *)

Section WebhookPaths.
Context {number : Type}.
Variable Webhook : Type.
Variable new_Webhook : string -> Result Webhook.
Variable verify : Webhook -> string -> SvixHeaders -> Result WebhookEvent.
Implicit Types (ctx : Ctx number) (db : Db number).

Lemma runMutation_syncUser args ctx db :
  runMutation (syncUser args) ctx db =
    match find (by_clerk_id (SyncUserArgs.clerkId args)) (users db) with
    | Some u => (Ok (User._id u), db)
    | None =>
        (Ok (next_id db),
         mkDb (users db ++ [synced args (next_id db)]) (interviews db) (comments db)
           (S (next_id db)))
    end.
Proof.
  unfold runMutation.
  destruct (find (by_clerk_id (SyncUserArgs.clerkId args)) (users db)) as [u |] eqn:Hfind.
  - rewrite (syncUser_existing ctx args db u Hfind). reflexivity.
  - rewrite (syncUser_new ctx args db Hfind). reflexivity.
Qed.

(** X1. When CLERK_WEBHOOK_SECRET is not set, or is the empty string, the
    handler throws before it looks at the request: whatever the headers
    and the body are, no response is returned and nothing is written. *)
Theorem webhook_without_secret_throws env request ctx db :
  when_truthy (CLERK_WEBHOOK_SECRET env) = None ->
  clerk_webhook Webhook new_Webhook verify env request ctx db =
    (Thrown (Error "missing clerk webhook secret environment variable"), db).
Proof.
  intros Hsecret. unfold clerk_webhook. rewrite Hsecret. reflexivity.
Qed.

(** X2. With the secret configured, a request in which one of svix-id,
    svix-timestamp and svix-signature is missing or empty is answered with
    400 "missing svix headers" before the body is read and before Svix is
    asked: the answer is the same when the body is not JSON, and nothing
    is written. *)
Theorem webhook_missing_header_400 env request secret ctx db :
  when_truthy (CLERK_WEBHOOK_SECRET env) = Some secret ->
  when_truthy (headers_get request "svix-id") = None
  \/ when_truthy (headers_get request "svix-timestamp") = None
  \/ when_truthy (headers_get request "svix-signature") = None ->
  clerk_webhook Webhook new_Webhook verify env request ctx db =
    (Respond (mkResponse "missing svix headers" 400), db).
Proof.
  intros Hsecret Hmissing. unfold clerk_webhook. rewrite Hsecret.
  destruct (when_truthy (headers_get request "svix-id"));
    destruct (when_truthy (headers_get request "svix-timestamp"));
    destruct (when_truthy (headers_get request "svix-signature"));
    try reflexivity.
  destruct Hmissing as [H | [H | H]]; discriminate H.
Qed.

(** X3. With the secret and the three headers in place, a body that
    request.json() rejects makes the handler throw that error: the
    request is not answered with 400, Svix is never asked, and nothing is
    written. *)
Theorem webhook_body_not_json_throws env request secret id timestamp signature e ctx db :
  when_truthy (CLERK_WEBHOOK_SECRET env) = Some secret ->
  when_truthy (headers_get request "svix-id") = Some id ->
  when_truthy (headers_get request "svix-timestamp") = Some timestamp ->
  when_truthy (headers_get request "svix-signature") = Some signature ->
  json request = Throw e ->
  clerk_webhook Webhook new_Webhook verify env request ctx db = (Thrown e, db).
Proof.
  intros Hsecret Hid Htime Hsig Hjson. unfold clerk_webhook.
  rewrite Hsecret, Hid, Htime, Hsig, Hjson. reflexivity.
Qed.

(** X4. A verified event of any type other than "user.created" is
    accepted and ignored: the answer is 200 and the database is unchanged,
    whatever the event carries. *)
Theorem webhook_other_event_ignored env request evt ctx db :
  verification Webhook new_Webhook verify env request (Ok evt) ->
  type evt <> "user.created" ->
  clerk_webhook Webhook new_Webhook verify env request ctx db =
    (Respond (mkResponse "webhook processed successfully" 200), db).
Proof.
  intros Hver Htype. rewrite (clerk_webhook_verification _ _ _ _ _ _ ctx db Hver).
  destruct (String.eqb_spec (type evt) "user.created"); [contradiction | reflexivity].
Qed.

(** X5. The handler answers 200 only to a request whose signature Svix
    verified, and it writes only for a verified event of type
    "user.created": a request that fails any earlier check gets neither. *)
Theorem webhook_acts_only_on_verified env request ctx db outcome db' :
  clerk_webhook Webhook new_Webhook verify env request ctx db = (outcome, db') ->
  (exists text, outcome = Respond (mkResponse text 200)) \/ db' <> db ->
  exists evt,
    verification Webhook new_Webhook verify env request (Ok evt)
    /\ (db' <> db -> type evt = "user.created").
Proof.
  unfold clerk_webhook. intros Hrun Hacts.
  assert (Hno : forall text n, n <> 200 ->
            (outcome, db') = (Respond (mkResponse text n), db) ->
            exists evt,
              verification Webhook new_Webhook verify env request (Ok evt)
              /\ (db' <> db -> type evt = "user.created")).
  { intros text n Hn Heq. inversion Heq; subst. exfalso.
    destruct Hacts as [[t Ht] | Hdb]; [| apply Hdb; reflexivity].
    inversion Ht. subst. apply Hn. reflexivity. }
  assert (Hthrown : forall e,
            (outcome, db') = (Thrown e, db) ->
            exists evt,
              verification Webhook new_Webhook verify env request (Ok evt)
              /\ (db' <> db -> type evt = "user.created")).
  { intros e Heq. inversion Heq; subst. exfalso.
    destruct Hacts as [[t Ht] | Hdb]; [discriminate Ht | apply Hdb; reflexivity]. }
  destruct (when_truthy (CLERK_WEBHOOK_SECRET env)) as [secret |] eqn:Hsecret;
    [| symmetry in Hrun; eapply Hthrown; eassumption].
  destruct (when_truthy (headers_get request "svix-id")) as [id |] eqn:Hid;
    [| symmetry in Hrun; eapply Hno; [| eassumption]; discriminate].
  destruct (when_truthy (headers_get request "svix-timestamp")) as [timestamp |] eqn:Htime;
    [| symmetry in Hrun; eapply Hno; [| eassumption]; discriminate].
  destruct (when_truthy (headers_get request "svix-signature")) as [signature |] eqn:Hsig;
    [| symmetry in Hrun; eapply Hno; [| eassumption]; discriminate].
  destruct (json request) as [body |] eqn:Hjson;
    [| symmetry in Hrun; eapply Hthrown; eassumption].
  destruct (new_Webhook secret) as [wh |] eqn:Hnew;
    [| symmetry in Hrun; eapply Hthrown; eassumption].
  destruct (verify wh body (mkSvixHeaders id timestamp signature)) as [evt |] eqn:Hverify;
    [| symmetry in Hrun; eapply Hno; [| eassumption]; discriminate].
  exists evt. split.
  - exists secret, id, timestamp, signature, body, wh. repeat split; assumption.
  - intros Hdb.
    destruct (String.eqb_spec (type evt) "user.created") as [Htype | Htype];
      [exact Htype |].
    inversion Hrun; subst. exfalso. apply Hdb. reflexivity.
Qed.

(** X6. Whatever the request, the handler leaves the interviews and the
    comments alone, and the users are either unchanged or have one new
    record at the end, with the fresh id and the role candidate; no
    existing user record is changed or removed. *)
Theorem webhook_frame env request ctx db :
  let db' := snd (clerk_webhook Webhook new_Webhook verify env request ctx db) in
  interviews db' = interviews db
  /\ comments db' = comments db
  /\ (db' = db
      \/ exists u,
           users db' = (users db ++ [u])%list
           /\ User._id u = next_id db
           /\ User.role u = candidate
           /\ next_id db' = S (next_id db)).
Proof.
  cbv zeta. unfold clerk_webhook.
  repeat match goal with
         | |- context [match when_truthy ?o with _ => _ end] => destruct (when_truthy o)
         end; try (cbn [snd]; auto).
  destruct (json request); [| cbn [snd]; auto].
  destruct (new_Webhook _); [| cbn [snd]; auto].
  destruct (verify _ _ _) as [evt |]; [| cbn [snd]; auto].
  destruct (type evt =? "user.created"); [| cbn [snd]; auto].
  destruct (UserJSON.email_addresses (data evt)) as [| e0 rest]; [cbn [snd]; auto |].
  fold (display_name (UserJSON.first_name (data evt)) (UserJSON.last_name (data evt))).
  fold (sync_args evt e0). rewrite runMutation_syncUser.
  destruct (find _ (users db)); cbn [snd interviews comments users next_id].
  - auto.
  - split; [reflexivity |]. split; [reflexivity |]. right.
    eexists. split; [reflexivity |]. repeat split.
Qed.

(** X7. For a verified "user.created" event with at least one email
    address: when no record is stored for its id, the handler stores one
    whose clerkId is the id, whose email is the first address of the list
    (the others are not looked at), whose name is the trimmed "first last",
    whose image is image_url and whose role is candidate, and answers
    200. *)
Theorem webhook_first_sync env request evt e0 others ctx db :
  verification Webhook new_Webhook verify env request (Ok evt) ->
  type evt = "user.created" ->
  UserJSON.email_addresses (data evt) = e0 :: others ->
  records_of (UserJSON.id (data evt)) db = [] ->
  clerk_webhook Webhook new_Webhook verify env request ctx db =
    (Respond (mkResponse "webhook processed successfully" 200),
     mkDb (users db ++
             [User.mk (next_id db) (UserJSON.id (data evt))
                (display_name (UserJSON.first_name (data evt))
                   (UserJSON.last_name (data evt)))
                (email_address e0) (UserJSON.image_url (data evt)) candidate])
       (interviews db) (comments db) (S (next_id db))).
Proof.
  intros Hver Htype Hemails Hnone.
  rewrite (clerk_webhook_verification _ _ _ _ _ _ ctx db Hver).
  rewrite Htype, Hemails. cbn [String.eqb Ascii.eqb Bool.eqb].
  fold (display_name (UserJSON.first_name (data evt)) (UserJSON.last_name (data evt))).
  fold (sync_args evt e0). rewrite runMutation_syncUser.
  assert (Hfind : find (by_clerk_id (SyncUserArgs.clerkId (sync_args evt e0))) (users db)
                  = None).
  { cbn [sync_args SyncUserArgs.clerkId]. unfold records_of in Hnone.
    destruct (find (by_clerk_id (UserJSON.id (data evt))) (users db)) as [u |] eqn:Hfind;
      [| reflexivity].
    apply find_some in Hfind. destruct Hfind as [Hin Hrange].
    assert (Hf : In u (filter (by_clerk_id (UserJSON.id (data evt))) (users db)))
      by (apply filter_In; split; assumption).
    rewrite Hnone in Hf. contradiction. }
  rewrite Hfind. reflexivity.
Qed.

(** X8. In a reachable database, a verified "user.created" event with at
    least one email address is answered with 200 and leaves exactly one
    record for its id; delivering the same request again is answered with
    200 and changes nothing.  The webhook has no de-duplication of its
    own: the replay is safe because syncUser looks the id up first. *)
Theorem webhook_replay_safe env request evt e0 others ctx ctx' db :
  reachable db ->
  verification Webhook new_Webhook verify env request (Ok evt) ->
  type evt = "user.created" ->
  UserJSON.email_addresses (data evt) = e0 :: others ->
  exists db1 u,
    clerk_webhook Webhook new_Webhook verify env request ctx db =
      (Respond (mkResponse "webhook processed successfully" 200), db1)
    /\ records_of (UserJSON.id (data evt)) db1 = [u]
    /\ clerk_webhook Webhook new_Webhook verify env request ctx' db1 =
         (Respond (mkResponse "webhook processed successfully" 200), db1).
Proof.
  intros Hreach Hver Htype Hemails. apply reachable_well_formed in Hreach.
  rewrite (clerk_webhook_verification _ _ _ _ _ _ ctx db Hver).
  rewrite Htype, Hemails. cbn [String.eqb Ascii.eqb Bool.eqb].
  fold (display_name (UserJSON.first_name (data evt)) (UserJSON.last_name (data evt))).
  fold (sync_args evt e0). rewrite runMutation_syncUser.
  change (SyncUserArgs.clerkId (sync_args evt e0)) with (UserJSON.id (data evt)).
  assert (Hagain : forall db1 u,
            find (by_clerk_id (UserJSON.id (data evt))) (users db1) = Some u ->
            clerk_webhook Webhook new_Webhook verify env request ctx' db1 =
              (Respond (mkResponse "webhook processed successfully" 200), db1)).
  { intros db1 u Hfind1.
    rewrite (clerk_webhook_verification _ _ _ _ _ _ ctx' db1 Hver).
    rewrite Htype, Hemails. cbn [String.eqb Ascii.eqb Bool.eqb].
    fold (display_name (UserJSON.first_name (data evt)) (UserJSON.last_name (data evt))).
    fold (sync_args evt e0). rewrite runMutation_syncUser.
    change (SyncUserArgs.clerkId (sync_args evt e0)) with (UserJSON.id (data evt)).
    rewrite Hfind1. reflexivity. }
  destruct (find (by_clerk_id (UserJSON.id (data evt))) (users db)) as [u |] eqn:Hfind.
  - exists db, u. split; [reflexivity |]. split.
    + unfold records_of.
      rewrite (filter_by_clerk_id_unique _ _ (wf_users _ Hreach)), Hfind. reflexivity.
    + apply (Hagain db u Hfind).
  - set (u := synced (sync_args evt e0) (next_id db)).
    set (db1 := mkDb (users db ++ [u]) (interviews db) (comments db) (S (next_id db))).
    assert (Hfind1 : find (by_clerk_id (UserJSON.id (data evt))) (users db1) = Some u).
    { unfold db1. cbn [users]. rewrite find_snoc, Hfind.
      unfold by_clerk_id, u. cbn [synced sync_args SyncUserArgs.clerkId User.clerkId].
      rewrite String.eqb_refl. reflexivity. }
    exists db1, u. split; [reflexivity |]. split.
    + unfold records_of, db1. cbn [users]. rewrite filter_app.
      rewrite (filter_by_clerk_id_absent _ _ (find_by_clerk_id_none _ _ Hfind)).
      cbn [filter app]. unfold by_clerk_id, u.
      cbn [synced sync_args SyncUserArgs.clerkId User.clerkId].
      rewrite String.eqb_refl. reflexivity.
    + apply (Hagain db1 u Hfind1).
Qed.
End WebhookPaths.

Lemma webhook_without_secret_throws_witness :
  when_truthy (CLERK_WEBHOOK_SECRET (mkEnv (Some ""))) = None
  /\ clerk_webhook string demo_new_Webhook (demo_verify ann_created) (mkEnv (Some ""))
       (demo_request "v1,whsec_demo") (anonymous 7) empty_db
     = (Thrown (Error "missing clerk webhook secret environment variable"), empty_db).
Proof.
  split; [reflexivity |].
  apply (webhook_without_secret_throws string demo_new_Webhook (demo_verify ann_created)
           (mkEnv (Some "")) (demo_request "v1,whsec_demo") (anonymous 7) empty_db).
  reflexivity.
Defined.

Lemma webhook_missing_header_400_witness :
  when_truthy (CLERK_WEBHOOK_SECRET demo_env) = Some "whsec_demo"
  /\ when_truthy (headers_get (demo_request "") "svix-signature") = None
  /\ clerk_webhook string demo_new_Webhook (demo_verify ann_created) demo_env
       (demo_request "") (anonymous 7) empty_db
     = (Respond (mkResponse "missing svix headers" 400), empty_db).
Proof.
  split; [reflexivity |]. split; [reflexivity |].
  apply (webhook_missing_header_400 string demo_new_Webhook (demo_verify ann_created)
           demo_env (demo_request "") "whsec_demo" (anonymous 7) empty_db).
  - reflexivity.
  - right. right. reflexivity.
Defined.

Lemma webhook_body_not_json_throws_witness :
  json not_json_request = Throw (Error "Unexpected token in JSON")
  /\ clerk_webhook string demo_new_Webhook (demo_verify ann_created) demo_env
       not_json_request (anonymous 7) empty_db
     = (Thrown (Error "Unexpected token in JSON"), empty_db).
Proof.
  split; [reflexivity |].
  apply (webhook_body_not_json_throws string demo_new_Webhook (demo_verify ann_created)
           demo_env not_json_request "whsec_demo" "msg_1" "1700000000" "v1,whsec_demo"
           (Error "Unexpected token in JSON") (anonymous 7) empty_db);
    reflexivity.
Defined.

Lemma webhook_other_event_ignored_witness :
  verification string demo_new_Webhook (demo_verify org_created) demo_env
    (demo_request "v1,whsec_demo") (Ok org_created)
  /\ type org_created <> "user.created"
  /\ clerk_webhook string demo_new_Webhook (demo_verify org_created) demo_env
       (demo_request "v1,whsec_demo") (anonymous 7) empty_db
     = (Respond (mkResponse "webhook processed successfully" 200), empty_db).
Proof.
  assert (Hver : verification string demo_new_Webhook (demo_verify org_created) demo_env
                   (demo_request "v1,whsec_demo") (Ok org_created)).
  { exists "whsec_demo", "msg_1", "1700000000", "v1,whsec_demo", "{}", "whsec_demo".
    repeat split. }
  assert (Htype : type org_created <> "user.created") by discriminate.
  split; [exact Hver |]. split; [exact Htype |].
  apply (webhook_other_event_ignored string demo_new_Webhook (demo_verify org_created)
           demo_env (demo_request "v1,whsec_demo") org_created (anonymous 7) empty_db
           Hver Htype).
Defined.

Lemma webhook_acts_only_on_verified_witness :
  let db1 := mkDb [User.mk 0 "u_1" "Ann" "a@b.com" None candidate] [] [] 1 in
  clerk_webhook string demo_new_Webhook (demo_verify ann_created) demo_env
    (demo_request "v1,whsec_demo") (anonymous 7) empty_db
  = (Respond (mkResponse "webhook processed successfully" 200), db1)
  /\ exists evt,
       verification string demo_new_Webhook (demo_verify ann_created) demo_env
         (demo_request "v1,whsec_demo") (Ok evt)
       /\ (db1 <> empty_db -> type evt = "user.created").
Proof.
  cbv zeta. split; [reflexivity |].
  apply (webhook_acts_only_on_verified string demo_new_Webhook (demo_verify ann_created)
           demo_env (demo_request "v1,whsec_demo") (anonymous 7) empty_db
           (Respond (mkResponse "webhook processed successfully" 200))
           (mkDb [User.mk 0 "u_1" "Ann" "a@b.com" None candidate] [] [] 1)).
  - reflexivity.
  - left. exists "webhook processed successfully". reflexivity.
Defined.

Lemma webhook_first_sync_witness :
  verification string demo_new_Webhook (demo_verify ann_created) demo_env
    (demo_request "v1,whsec_demo") (Ok ann_created)
  /\ records_of (UserJSON.id (data ann_created)) (@empty_db Z) = []
  /\ clerk_webhook string demo_new_Webhook (demo_verify ann_created) demo_env
       (demo_request "v1,whsec_demo") (anonymous 7) empty_db
     = (Respond (mkResponse "webhook processed successfully" 200),
        mkDb [User.mk 0 "u_1" "Ann" "a@b.com" None candidate] [] [] 1).
Proof.
  assert (Hver : verification string demo_new_Webhook (demo_verify ann_created) demo_env
                   (demo_request "v1,whsec_demo") (Ok ann_created)).
  { exists "whsec_demo", "msg_1", "1700000000", "v1,whsec_demo", "{}", "whsec_demo".
    repeat split. }
  split; [exact Hver |]. split; [reflexivity |].
  apply (webhook_first_sync string demo_new_Webhook (demo_verify ann_created) demo_env
           (demo_request "v1,whsec_demo") ann_created (mkEmail "a@b.com") []
           (anonymous 7) empty_db Hver); reflexivity.
Defined.

Lemma webhook_replay_safe_witness :
  reachable (@empty_db Z)
  /\ verification string demo_new_Webhook (demo_verify ann_created) demo_env
       (demo_request "v1,whsec_demo") (Ok ann_created)
  /\ exists db1 u,
       clerk_webhook string demo_new_Webhook (demo_verify ann_created) demo_env
         (demo_request "v1,whsec_demo") (anonymous 7) empty_db
       = (Respond (mkResponse "webhook processed successfully" 200), db1)
       /\ records_of (UserJSON.id (data ann_created)) db1 = [u]
       /\ clerk_webhook string demo_new_Webhook (demo_verify ann_created) demo_env
            (demo_request "v1,whsec_demo") (anonymous 8) db1
          = (Respond (mkResponse "webhook processed successfully" 200), db1).
Proof.
  assert (Hver : verification string demo_new_Webhook (demo_verify ann_created) demo_env
                   (demo_request "v1,whsec_demo") (Ok ann_created)).
  { exists "whsec_demo", "msg_1", "1700000000", "v1,whsec_demo", "{}", "whsec_demo".
    repeat split. }
  split; [apply reachable_empty |]. split; [exact Hver |].
  apply (webhook_replay_safe string demo_new_Webhook (demo_verify ann_created) demo_env
           (demo_request "v1,whsec_demo") ann_created (mkEmail "a@b.com") []
           (anonymous 7) (anonymous 8) empty_db (reachable_empty) Hver);
    reflexivity.
Defined.

(** ** What a call adds to each table *)

Section Growth.
Context {number : Type}.
Implicit Types (ctx : Ctx number) (db : Db number).

Lemma extends_refl {A} (l : list A) : extends l l.
Proof. exists []. symmetry. apply app_nil_r. Qed.

Lemma extends_trans {A} (l1 l2 l3 : list A) :
  extends l1 l2 -> extends l2 l3 -> extends l1 l3.
Proof.
  intros [a ->] [b ->]. exists (a ++ b)%list. symmetry. apply app_assoc.
Qed.

Lemma exec_users ctx (call : Call number) db :
  users (exec (ctx, call) db) =
    (users db ++
       match call with
       | CallSyncUser args =>
           match find (by_clerk_id (SyncUserArgs.clerkId args)) (users db) with
           | Some _ => []
           | None => [synced args (next_id db)]
           end
       | _ => []
       end)%list.
Proof.
  destruct call as [args | args | args | args]; cbn [exec].
  - destruct (find (by_clerk_id (SyncUserArgs.clerkId args)) (users db)) as [u |] eqn:Hfind.
    + rewrite (syncUser_existing ctx args db u Hfind). cbn. symmetry. apply app_nil_r.
    + rewrite (syncUser_new ctx args db Hfind). reflexivity.
  - unfold createInterview, bind, getUserIdentity, throw, insert_interviews.
    destruct (auth ctx); cbn; symmetry; apply app_nil_r.
  - unfold updateInterview, bind, getUserIdentity, throw, Date_now, ret, patch_interviews.
    destruct (auth ctx); [| cbn; symmetry; apply app_nil_r].
    destruct (UpdateInterviewArgs.status args =? "completed");
      destruct (existsb _ _); cbn; symmetry; apply app_nil_r.
  - unfold addComment, bind, getUserIdentity, throw, insert_comments.
    destruct (auth ctx); cbn; symmetry; apply app_nil_r.
Qed.

Lemma exec_comments ctx (call : Call number) db :
  comments (exec (ctx, call) db) =
    (comments db ++
       match call, auth ctx with
       | CallAddComment args, Some identity => [commented args identity (next_id db)]
       | _, _ => []
       end)%list.
Proof.
  destruct call as [args | args | args | args]; cbn [exec].
  - unfold syncUser, bind, first, ret, insert_users.
    destruct (find _ (users db)); destruct (auth ctx); cbn; symmetry; apply app_nil_r.
  - unfold createInterview, bind, getUserIdentity, throw, insert_interviews.
    destruct (auth ctx); cbn; symmetry; apply app_nil_r.
  - unfold updateInterview, bind, getUserIdentity, throw, Date_now, ret, patch_interviews.
    destruct (auth ctx); [| cbn; symmetry; apply app_nil_r].
    destruct (UpdateInterviewArgs.status args =? "completed");
      destruct (existsb _ _); cbn; symmetry; apply app_nil_r.
  - unfold addComment, bind, getUserIdentity, throw, insert_comments.
    destruct (auth ctx); cbn; [reflexivity | symmetry; apply app_nil_r].
Qed.

Lemma exec_interview_ids ctx (call : Call number) db :
  map Interview._id (interviews (exec (ctx, call) db)) =
    (map Interview._id (interviews db) ++
       match call, auth ctx with
       | CallCreateInterview _, Some _ => [next_id db]
       | _, _ => []
       end)%list.
Proof.
  destruct call as [args | args | args | args]; cbn [exec].
  - unfold syncUser, bind, first, ret, insert_users.
    destruct (find _ (users db)); destruct (auth ctx); cbn; symmetry; apply app_nil_r.
  - destruct (auth ctx) as [identity |] eqn:Hauth.
    + rewrite (createInterview_session _ _ _ _ Hauth). cbn [commit interviews].
      rewrite map_app. reflexivity.
    + rewrite (createInterview_no_session _ _ _ Hauth). cbn. symmetry. apply app_nil_r.
  - destruct (auth ctx) as [identity |] eqn:Hauth.
    + rewrite (updateInterview_session _ _ _ _ Hauth). unfold patch_interviews.
      destruct (existsb _ _); cbn [commit interviews].
      * fold (patched (UpdateInterviewArgs.id args) (status_patch args (now ctx))).
        rewrite map_patched_ids. symmetry. apply app_nil_r.
      * symmetry. apply app_nil_r.
    + rewrite (updateInterview_no_session _ _ _ Hauth). cbn. symmetry. apply app_nil_r.
  - unfold addComment, bind, getUserIdentity, throw, insert_comments.
    destruct (auth ctx); cbn; symmetry; apply app_nil_r.
Qed.

Lemma run_keeps_candidates trace : forall db,
  Forall (fun u => User.role u = candidate) (users db) ->
  Forall (fun u => User.role u = candidate) (users (run trace db)).
Proof.
  induction trace as [| [ctx call] rest IH]; intros db Hall; cbn [run]; [exact Hall |].
  apply IH. rewrite exec_users. apply Forall_app. split; [exact Hall |].
  destruct call as [args | args | args | args]; try constructor.
  destruct (find _ (users db)); constructor; [reflexivity | constructor].
Qed.

(** X9. Every user record in a reachable database has the role candidate:
    syncUser stores it, and no mutation of the code ever writes a role
    again, so no call sequence produces an interviewer. *)
Theorem reachable_users_are_candidates (db : Db number) :
  reachable db -> Forall (fun u => User.role u = candidate) (users db).
Proof.
  intros [trace <-]. apply run_keeps_candidates. constructor.
Qed.

(** X10. No sequence of calls deletes or rewrites a user or a comment, or
    deletes an interview: after it, the users and the comments are the old
    lists with documents added at the end, and the ids of the interviews
    are the old ids with ids added at the end. *)
Theorem run_only_adds (trace : list (Ctx number * Call number)) (db : Db number) :
  extends (users db) (users (run trace db))
  /\ extends (comments db) (comments (run trace db))
  /\ extends (map Interview._id (interviews db))
       (map Interview._id (interviews (run trace db))).
Proof.
  revert db. induction trace as [| [ctx call] rest IH]; intros db; cbn [run].
  - repeat split; apply extends_refl.
  - destruct (IH (exec (ctx, call) db)) as (Hu & Hc & Hi).
    split; [| split].
    + eapply extends_trans; [| exact Hu]. rewrite exec_users. eexists. reflexivity.
    + eapply extends_trans; [| exact Hc]. rewrite exec_comments. eexists. reflexivity.
    + eapply extends_trans; [| exact Hi]. rewrite exec_interview_ids.
      eexists. reflexivity.
Qed.
End Growth.

Lemma reachable_users_are_candidates_witness :
  reachable (run [(anonymous 1, CallSyncUser (SyncUserArgs.mk "u_1" "a@b.com" "Ann" None))]
               (@empty_db Z))
  /\ Forall (fun u => User.role u = candidate)
       (users (run [(anonymous 1,
                     CallSyncUser (SyncUserArgs.mk "u_1" "a@b.com" "Ann" None))]
                 (@empty_db Z))).
Proof.
  assert (Hreach : reachable
            (run [(anonymous 1, CallSyncUser (SyncUserArgs.mk "u_1" "a@b.com" "Ann" None))]
               (@empty_db Z))).
  { eexists. reflexivity. }
  split; [exact Hreach |].
  apply (reachable_users_are_candidates _ Hreach).
Defined.

(** ** Writing, then reading *)

Section RoundTrips.
Context {number : Type}.
Implicit Types (ctx : Ctx number) (db : Db number).

(** X11. After syncUser, getUserByClerkId of the same clerkId, with or
    without a session, finds a record with the id syncUser returned; when
    no record was stored for the clerkId before, it is the record with
    the email, name and image of the arguments and the role candidate. *)
Theorem syncUser_then_getUserByClerkId ctx ctx' (args : SyncUserArgs.t) db :
  exists id db1 u,
    syncUser args ctx db = Ok (id, db1)
    /\ getUserByClerkId (SyncUserArgs.clerkId args) ctx' db1 = Ok (Some u, db1)
    /\ User._id u = id
    /\ User.clerkId u = SyncUserArgs.clerkId args
    /\ (records_of (SyncUserArgs.clerkId args) db = [] -> u = synced args (next_id db)).
Proof.
  unfold getUserByClerkId, first.
  destruct (find (by_clerk_id (SyncUserArgs.clerkId args)) (users db)) as [u |] eqn:Hfind.
  - exists (User._id u), db, u. rewrite (syncUser_existing ctx args db u Hfind), Hfind.
    split; [reflexivity |]. split; [reflexivity |]. split; [reflexivity |].
    pose proof (find_some _ _ Hfind) as [Hin Hrange]. split.
    + unfold by_clerk_id in Hrange. apply String.eqb_eq. exact Hrange.
    + intros Hnone. exfalso.
      assert (Hf : In u (records_of (SyncUserArgs.clerkId args) db))
        by (apply filter_In; split; assumption).
      rewrite Hnone in Hf. contradiction.
  - rewrite (syncUser_new ctx args db Hfind).
    exists (next_id db). eexists. exists (synced args (next_id db)).
    split; [reflexivity |]. cbn [users]. rewrite find_snoc, Hfind.
    unfold by_clerk_id at 1. cbn [synced User.clerkId]. rewrite String.eqb_refl.
    repeat split.
Qed.

(** X12. After an authenticated createInterview, getInterviewByStreamCallId
    of its streamCallId, with or without a session, returns the oldest
    interview stored with that call id: the new one when the call id was
    not in use, and the older one when it was.  A call id already in use
    does not make createInterview fail. *)
Theorem createInterview_then_getInterviewByStreamCallId ctx ctx' identity
    (args : CreateInterviewArgs.t number) db :
  auth ctx = Some identity ->
  exists db1,
    createInterview args ctx db = Ok (next_id db, db1)
    /\ getInterviewByStreamCallId (CreateInterviewArgs.streamCallId args) ctx' db1
       = Ok (Some
               (match find (by_stream_call_id (CreateInterviewArgs.streamCallId args))
                        (interviews db) with
                | Some older => older
                | None => created args (next_id db)
                end), db1).
Proof.
  intros Hauth. rewrite (createInterview_session _ _ _ _ Hauth).
  eexists. split; [reflexivity |].
  unfold getInterviewByStreamCallId, first. cbn [interviews]. rewrite find_snoc.
  destruct (find _ (interviews db)); [reflexivity |].
  unfold by_stream_call_id at 1. cbn [created Interview.streamCallId].
  rewrite String.eqb_refl. reflexivity.
Qed.

(** X13. After an authenticated createInterview, the list getMyInterviews
    gives a caller is the list it gave before, followed by the new
    interview when the caller's subject is its candidateId and by nothing
    otherwise: the interviewers named in interviewerIds do not get it,
    the creator neither. *)
Theorem createInterview_then_getMyInterviews ctx ctx' identity me
    (args : CreateInterviewArgs.t number) db :
  auth ctx = Some identity ->
  auth ctx' = Some me ->
  exists db1 before,
    createInterview args ctx db = Ok (next_id db, db1)
    /\ getMyInterviews ctx' db = Ok (before, db)
    /\ getMyInterviews ctx' db1 =
         Ok ((before ++
                if CreateInterviewArgs.candidateId args =? subject me
                then [created args (next_id db)] else [])%list, db1).
Proof.
  intros Hauth Hme. rewrite (createInterview_session _ _ _ _ Hauth).
  eexists. eexists. split; [reflexivity |].
  unfold getMyInterviews, bind, getUserIdentity, collect. rewrite Hme.
  split; [reflexivity |]. cbn [interviews]. rewrite filter_app. reflexivity.
Qed.

(** X14. After an authenticated addComment, getComments of an interview,
    with or without a session, gives the list it gave before, followed by
    the new comment when the interview is the one commented on and by
    nothing otherwise.  The interview need not exist. *)
Theorem addComment_then_getComments ctx ctx' identity (args : AddCommentArgs.t number)
    (interviewId : Id) db :
  auth ctx = Some identity ->
  exists db1 before,
    addComment args ctx db = Ok (next_id db, db1)
    /\ getComments interviewId ctx' db = Ok (before, db)
    /\ getComments interviewId ctx' db1 =
         Ok ((before ++
                if Nat.eqb (AddCommentArgs.interviewId args) interviewId
                then [commented args identity (next_id db)] else [])%list, db1).
Proof.
  intros Hauth. unfold addComment, bind, getUserIdentity, insert_comments.
  rewrite Hauth. eexists. eexists. split; [reflexivity |].
  unfold getComments, collect. split; [reflexivity |].
  cbn [comments]. rewrite filter_app. reflexivity.
Qed.

(** X15. An authenticated updateInterview of a stored interview succeeds
    for any status string and from any earlier status: afterwards the
    interview has the status given, and every interview with another id
    is exactly as it was, status and endTime included. *)
Theorem updateInterview_only_target ctx identity (args : UpdateInterviewArgs.t)
    (i : Interview.t number) db :
  auth ctx = Some identity ->
  get_interview db (UpdateInterviewArgs.id args) = Some i ->
  exists db1 i1,
    updateInterview args ctx db = Ok (tt, db1)
    /\ get_interview db1 (UpdateInterviewArgs.id args) = Some i1
    /\ Interview.status i1 = UpdateInterviewArgs.status args
    /\ forall id, id <> UpdateInterviewArgs.id args ->
         get_interview db1 id = get_interview db id.
Proof.
  intros Hauth Hget.
  pose proof (get_interview_exec ctx (CallUpdateInterview args) db) as Hexec.
  cbn [exec] in Hexec. rewrite Hauth in Hexec.
  assert (Hok : updateInterview args ctx db
                = Ok (tt, commit db (updateInterview args ctx db))).
  { rewrite (updateInterview_session _ _ _ _ Hauth). unfold patch_interviews.
    rewrite existsb_has_id. fold (get_interview db (UpdateInterviewArgs.id args)).
    rewrite Hget. reflexivity. }
  exists (commit db (updateInterview args ctx db)).
  exists (merge (status_patch args (now ctx)) i).
  split; [exact Hok |]. split; [| split].
  - rewrite Hexec, Hget. cbn [option_map]. unfold patched.
    unfold get_interview in Hget. apply find_some in Hget. destruct Hget as [_ Hid].
    rewrite Hid. reflexivity.
  - reflexivity.
  - intros id Hother. rewrite Hexec.
    destruct (get_interview db id) as [j |] eqn:Hj; [| reflexivity].
    cbn [option_map]. unfold patched, has_id.
    unfold get_interview in Hj. apply find_has_id in Hj. rewrite Hj.
    destruct (Nat.eqb_spec id (UpdateInterviewArgs.id args)); [contradiction | reflexivity].
Qed.
End RoundTrips.

Lemma createInterview_then_getInterviewByStreamCallId_witness :
  auth (as_alice 5) = Some alice
  /\ exists db1,
       createInterview (sample_interview 9 "scheduled") (as_alice 5) empty_db
         = Ok (0, db1)
       /\ getInterviewByStreamCallId "call_1" (anonymous 6) db1
          = Ok (Some (created (sample_interview 9 "scheduled") 0), db1).
Proof.
  split; [reflexivity |].
  apply (createInterview_then_getInterviewByStreamCallId (as_alice 5) (anonymous 6) alice
           (sample_interview 9 "scheduled") empty_db).
  reflexivity.
Defined.

Lemma createInterview_then_getMyInterviews_witness :
  auth (as_alice 5) = Some alice
  /\ auth (mkCtx (Some (mkIdentity "user_bob" "clerk|user_bob")) 6%Z)
     = Some (mkIdentity "user_bob" "clerk|user_bob")
  /\ exists db1 before,
       createInterview (sample_interview 9 "scheduled") (as_alice 5) empty_db
         = Ok (0, db1)
       /\ getMyInterviews (mkCtx (Some (mkIdentity "user_bob" "clerk|user_bob")) 6%Z)
            empty_db = Ok (before, empty_db)
       /\ getMyInterviews (mkCtx (Some (mkIdentity "user_bob" "clerk|user_bob")) 6%Z) db1
          = Ok ((before ++ [created (sample_interview 9 "scheduled") 0])%list, db1).
Proof.
  split; [reflexivity |]. split; [reflexivity |].
  apply (createInterview_then_getMyInterviews (as_alice 5)
           (mkCtx (Some (mkIdentity "user_bob" "clerk|user_bob")) 6%Z) alice
           (mkIdentity "user_bob" "clerk|user_bob")
           (sample_interview 9 "scheduled") empty_db); reflexivity.
Defined.

Lemma addComment_then_getComments_witness :
  auth (as_alice 5) = Some alice
  /\ exists db1 before,
       addComment (AddCommentArgs.mk 7 "solid" 4%Z) (as_alice 5) empty_db = Ok (0, db1)
       /\ getComments 7 (anonymous 6) empty_db = Ok (before, empty_db)
       /\ getComments 7 (anonymous 6) db1
          = Ok ((before ++ [commented (AddCommentArgs.mk 7 "solid" 4%Z) alice 0])%list,
                db1).
Proof.
  split; [reflexivity |].
  apply (addComment_then_getComments (as_alice 5) (anonymous 6) alice
           (AddCommentArgs.mk 7 "solid" 4%Z) 7 empty_db).
  reflexivity.
Defined.

Lemma updateInterview_only_target_witness :
  let db := run created_and_completed empty_db in
  auth (as_alice 1600) = Some alice
  /\ get_interview db 0
     = Some (Interview.mk 0 "Backend interview" None 2000%Z (Some 1500%Z) "completed"
               "call_1" "user_bob" "user_alice,user_carol")
  /\ exists db1 i1,
       updateInterview (UpdateInterviewArgs.mk 0 "anything at all") (as_alice 1600) db
         = Ok (tt, db1)
       /\ get_interview db1 0 = Some i1
       /\ Interview.status i1 = "anything at all"
       /\ forall id, id <> 0 -> get_interview db1 id = get_interview db id.
Proof.
  cbv zeta. split; [reflexivity |]. split; [reflexivity |].
  apply (updateInterview_only_target (as_alice 1600) alice
           (UpdateInterviewArgs.mk 0 "anything at all")
           (Interview.mk 0 "Backend interview" None 2000%Z (Some 1500%Z) "completed"
              "call_1" "user_bob" "user_alice,user_carol")
           (run created_and_completed empty_db)); reflexivity.
Defined.

(** ** The client *)

Section ClientFacts.
Context {number : Type}.
Implicit Types (ctx : Ctx number) (db : Db number).

Lemma role_string_not_recruiter (r : Role) : (role_string r =? "recruiter") = false.
Proof. destruct r; reflexivity. Qed.

Lemma role_is_recruiter (userData : QueryValue (option User.t)) :
  role_is userData "recruiter" = false.
Proof.
  destruct userData as [| [u |]]; try reflexivity.
  apply role_string_not_recruiter.
Qed.

(** X16. useUserRole never reports an interviewer: it compares the stored
    role with "recruiter", which is neither literal of the schema's role,
    so isInterviewer is false for every user, every database and every
    state of the query, a stored interviewer included. *)
Theorem useUserRole_never_interviewer (user : option ClerkUser.t) (arrived : bool) ctx db :
  exists r,
    useUserRole user arrived ctx db = Ok r
    /\ isInterviewer r = false
    /\ isLoading r = negb arrived.
Proof.
  unfold useUserRole, useQuery, getUserByClerkId, first.
  destruct arrived.
  - eexists. split; [reflexivity |]. split; [apply role_is_recruiter | reflexivity].
  - eexists. split; [reflexivity |]. split; reflexivity.
Qed.

End ClientFacts.


(** ** The stored name *)

Section StoredName.

Lemma list_ascii_of_string_app (a b : string) :
  list_ascii_of_string (a ++ b) = (list_ascii_of_string a ++ list_ascii_of_string b)%list.
Proof.
  induction a as [| c a IH]; cbn; [reflexivity |]. rewrite IH. reflexivity.
Qed.

Lemma drop_ws_length_le (b : bool) (n : nat) : forall l,
  (List.length l <= n)%nat -> (List.length (drop_ws b l) <= List.length l)%nat.
Proof.
  induction n as [| n IH]; intros l Hn.
  - destruct l; [cbn; lia | cbn in Hn; lia].
  - destruct l as [| c1 [| c2 [| c3 l3]]]; cbn [drop_ws]; cbn [List.length] in *.
    + lia.
    + destruct (ws1 c1); cbn; lia.
    + destruct (ws1 c1).
      * specialize (IH [c2]). cbn [List.length] in IH. etransitivity; [apply IH; lia | lia].
      * destruct (if b then ws2 c2 c1 else ws2 c1 c2); cbn; lia.
    + destruct (ws1 c1).
      * specialize (IH (c2 :: c3 :: l3)). cbn [List.length] in IH.
        etransitivity; [apply IH; lia | lia].
      * destruct (if b then ws2 c2 c1 else ws2 c1 c2).
        -- specialize (IH (c3 :: l3)). cbn [List.length] in IH.
           etransitivity; [apply IH; lia | lia].
        -- destruct (if b then ws3 c3 c2 c1 else ws3 c1 c2 c3).
           ++ specialize (IH l3). etransitivity; [apply IH; lia | lia].
           ++ cbn [List.length]. lia.
Qed.

Lemma drop_ws_length (b : bool) (l : list ascii) :
  (List.length (drop_ws b l) <= List.length l)%nat.
Proof. apply (drop_ws_length_le b (List.length l)). lia. Qed.

(** [drop_ws] returns its argument or something shorter. *)
Lemma drop_ws_same_length (b : bool) (l : list ascii) :
  List.length (drop_ws b l) = List.length l -> drop_ws b l = l.
Proof.
  destruct l as [| c1 [| c2 [| c3 l3]]]; cbn [drop_ws]; try reflexivity.
  - destruct (ws1 c1); [cbn; discriminate | reflexivity].
  - destruct (ws1 c1).
    + intros H. pose proof (drop_ws_length b [c2]) as Hl. cbn [drop_ws] in Hl.
      rewrite H in Hl.
      cbn in Hl. lia.
    + destruct (if b then ws2 c2 c1 else ws2 c1 c2); [cbn; discriminate | reflexivity].
  - destruct (ws1 c1).
    + intros H. pose proof (drop_ws_length b (c2 :: c3 :: l3)) as Hl. cbn [drop_ws] in Hl.
      rewrite H in Hl.
      cbn in Hl. lia.
    + destruct (if b then ws2 c2 c1 else ws2 c1 c2).
      * intros H. pose proof (drop_ws_length b (c3 :: l3)) as Hl. cbn [drop_ws] in Hl.
      rewrite H in Hl.
        cbn in Hl. lia.
      * destruct (if b then ws3 c3 c2 c1 else ws3 c1 c2 c3); [| reflexivity].
        intros H. pose proof (drop_ws_length b l3) as Hl. cbn [drop_ws] in Hl.
      rewrite H in Hl.
        cbn in Hl. lia.
Qed.

Lemma ws1_space : ws1 " "%char = true.
Proof. reflexivity. Qed.

Lemma ws2_space_l (c : ascii) : ws2 " "%char c = false.
Proof. reflexivity. Qed.

Lemma ws2_space_r (c : ascii) : ws2 c " "%char = false.
Proof. unfold ws2. cbn. apply andb_false_r. Qed.

Lemma ws3_space_l (c2 c3 : ascii) : ws3 " "%char c2 c3 = false.
Proof. reflexivity. Qed.

Lemma ws3_space_m (c1 c3 : ascii) : ws3 c1 " "%char c3 = false.
Proof.
  unfold ws3. cbn.
  repeat match goal with
         | |- context [Nat.eqb (nat_of_ascii c1) ?k] => destruct (Nat.eqb (nat_of_ascii c1) k)
         end; reflexivity.
Qed.

Lemma ws3_space_r (c1 c2 : ascii) : ws3 c1 c2 " "%char = false.
Proof.
  unfold ws3. cbn. rewrite !andb_false_r. reflexivity.
Qed.

(** White space is dropped from the head only: what follows a head that
    stays, here a space and more, is not looked at. *)
Lemma drop_ws_fixed_app (b : bool) (l m : list ascii) :
  l <> [] -> drop_ws b l = l ->
  drop_ws b (l ++ " "%char :: m) = (l ++ " "%char :: m)%list.
Proof.
  intros Hne Hfix. apply drop_ws_same_length.
  destruct l as [| c1 [| c2 [| c3 l3]]]; [contradiction | | |];
    cbn [app drop_ws] in *.
  - destruct (ws1 c1) eqn:H1; [discriminate Hfix |].
    assert (H2 : (if b then ws2 " "%char c1 else ws2 c1 " "%char) = false)
      by (destruct b; [apply ws2_space_l | apply ws2_space_r]).
    rewrite H2. destruct m as [| c3 m]; [reflexivity |].
    assert (H3 : (if b then ws3 c3 " "%char c1 else ws3 c1 " "%char c3) = false)
      by (destruct b; apply ws3_space_m).
    rewrite H3. reflexivity.
  - destruct (ws1 c1) eqn:H1.
    { pose proof (drop_ws_length b [c2]) as Hl. cbn [drop_ws] in Hl. rewrite Hfix in Hl. cbn in Hl. lia. }
    destruct (if b then ws2 c2 c1 else ws2 c1 c2) eqn:H2; [discriminate Hfix |].
    assert (H3 : (if b then ws3 " "%char c2 c1 else ws3 c1 c2 " "%char) = false)
      by (destruct b; [apply ws3_space_l | apply ws3_space_r]).
    rewrite H3. reflexivity.
  - destruct (ws1 c1) eqn:H1.
    { pose proof (drop_ws_length b (c2 :: c3 :: l3)) as Hl. cbn [drop_ws] in Hl. rewrite Hfix in Hl.
      cbn in Hl. lia. }
    destruct (if b then ws2 c2 c1 else ws2 c1 c2) eqn:H2.
    { pose proof (drop_ws_length b (c3 :: l3)) as Hl. cbn [drop_ws] in Hl. rewrite Hfix in Hl.
      cbn in Hl. lia. }
    destruct (if b then ws3 c3 c2 c1 else ws3 c1 c2 c3) eqn:H3; [| reflexivity].
    pose proof (drop_ws_length b l3) as Hl. cbn [drop_ws] in Hl. rewrite Hfix in Hl. cbn in Hl. lia.
Qed.

(** A trimmed string has no white space to drop at either end. *)
Lemma trimmed_ends (s : string) :
  trimmed s ->
  drop_ws false (list_ascii_of_string s) = list_ascii_of_string s
  /\ drop_ws true (rev (list_ascii_of_string s)) = rev (list_ascii_of_string s).
Proof.
  unfold trimmed, trim. intros Htrim.
  apply (f_equal list_ascii_of_string) in Htrim.
  rewrite list_ascii_of_string_of_list_ascii in Htrim.
  set (L := list_ascii_of_string s) in *.
  assert (Hlen : List.length (drop_ws false L) = List.length L).
  { apply Nat.le_antisymm; [apply drop_ws_length |].
    rewrite <- Htrim at 1. rewrite length_rev.
    etransitivity; [apply drop_ws_length |]. rewrite length_rev. lia. }
  apply drop_ws_same_length in Hlen. rewrite Hlen in Htrim. split; [exact Hlen |].
  rewrite <- Htrim at 2. rewrite rev_involutive. reflexivity.
Qed.

Lemma list_ascii_nonempty (s : string) : s <> "" -> list_ascii_of_string s <> [].
Proof. destruct s; [contradiction | discriminate]. Qed.

Lemma or_empty_nonempty (o : option string) (s : string) :
  or_empty o = s -> s <> "" -> o = Some s.
Proof.
  unfold or_empty, truthy. destruct o as [x |]; [| intros <- H; contradiction].
  destruct (String.eqb_spec x ""); cbn; intros <- H; [contradiction | reflexivity].
Qed.

(** X18. The name the webhook stores, for first and last names that carry
    no white space at their ends (null, a missing key and the empty string
    count as no name): the one name when only one is there, the empty
    string when neither is, and first, one space, last when both are. *)
Theorem display_name_of_trimmed (first_name last_name : option string) :
  trimmed (or_empty first_name) ->
  trimmed (or_empty last_name) ->
  display_name first_name last_name =
    if or_empty first_name =? "" then or_empty last_name
    else if or_empty last_name =? "" then or_empty first_name
    else or_empty first_name ++ " " ++ or_empty last_name.
Proof.
  unfold display_name.
  generalize (or_empty first_name) as f, (or_empty last_name) as l.
  intros f l Hf Hl.
  destruct (trimmed_ends f Hf) as [Hf1 Hf2]. destruct (trimmed_ends l Hl) as [Hl1 Hl2].
  unfold trim. rewrite !list_ascii_of_string_app. cbn [list_ascii_of_string app].
  set (F := list_ascii_of_string f) in *. set (L := list_ascii_of_string l) in *.
  destruct (String.eqb_spec f "") as [-> | Hfne].
  - cbn [F list_ascii_of_string app drop_ws]. rewrite ws1_space, Hl1, Hl2, rev_involutive.
    apply string_of_list_ascii_of_string.
  - pose proof (list_ascii_nonempty f Hfne) as HF. fold F in HF.
    rewrite (drop_ws_fixed_app false F L HF Hf1).
    destruct (String.eqb_spec l "") as [-> | Hlne].
    + cbn [L list_ascii_of_string]. rewrite rev_app_distr. cbn [rev app drop_ws].
      rewrite ws1_space, Hf2, rev_involutive. apply string_of_list_ascii_of_string.
    + pose proof (list_ascii_nonempty l Hlne) as HL. fold L in HL.
      rewrite rev_app_distr. cbn [rev]. rewrite <- app_assoc. cbn [app].
      assert (HrL : rev L <> []).
      { intros H. apply HL. rewrite <- (rev_involutive L), H. reflexivity. }
      rewrite (drop_ws_fixed_app true (rev L) (rev F) HrL Hl2).
      rewrite rev_app_distr. cbn [rev]. rewrite !rev_involutive, <- app_assoc. cbn [app].
      change (F ++ " "%char :: L)%list
        with (F ++ list_ascii_of_string (String " " l))%list.
      unfold F. rewrite <- list_ascii_of_string_app.
      apply string_of_list_ascii_of_string.
Qed.
End StoredName.

Lemma display_name_of_trimmed_witness :
  trimmed (or_empty (Some "Ann"))
  /\ trimmed (or_empty (Some "Lee"))
  /\ display_name (Some "Ann") (Some "Lee") = "Ann Lee".
Proof.
  split; [reflexivity |]. split; [reflexivity |].
  apply (display_name_of_trimmed (Some "Ann") (Some "Lee")); reflexivity.
Defined.

(** ** Duplicate prevention *)

Section OneRecord.
Context {number : Type}.

(** X19. In a reachable database no Clerk user has two records: however
    often and with whatever arguments syncUser was called, among
    whatever other calls, the records of a clerkId are none or one. *)
Theorem reachable_one_record_per_clerkId (db : Db number) (clerkId : string) :
  reachable db ->
  records_of clerkId db = [] \/ exists u, records_of clerkId db = [u].
Proof.
  intros Hreach. apply reachable_well_formed in Hreach. unfold records_of.
  rewrite (filter_by_clerk_id_unique _ _ (wf_users _ Hreach)).
  destruct (find (by_clerk_id clerkId) (users db)) as [u |];
    [right; exists u; reflexivity | left; reflexivity].
Qed.
End OneRecord.

Lemma reachable_one_record_per_clerkId_witness :
  let db := run [ (anonymous 1, CallSyncUser (SyncUserArgs.mk "u_1" "a@b.com" "Ann" None));
                  (as_alice 2, CallSyncUser (SyncUserArgs.mk "u_1" "x@y.org" "A." None)) ]
              (@empty_db Z) in
  reachable db
  /\ (records_of "u_1" db = [] \/ exists u, records_of "u_1" db = [u]).
Proof.
  cbv zeta.
  assert (Hreach : reachable
            (run [ (anonymous 1,
                    CallSyncUser (SyncUserArgs.mk "u_1" "a@b.com" "Ann" None));
                   (as_alice 2,
                    CallSyncUser (SyncUserArgs.mk "u_1" "x@y.org" "A." None)) ]
               (@empty_db Z))).
  { eexists. reflexivity. }
  split; [exact Hreach |].
  apply (reachable_one_record_per_clerkId _ "u_1" Hreach).
Defined.
